(** * Swagger UI handler (package swagger, swagger.go)

  A shallow embedding of the HTTP handler built by [New]: the route
  pattern and its leftmost-first matching, the derivation of the leaf
  and the prefix, the one-time prefix write, the content-type switch,
  and the three ways a request is served (template, registered
  document, static file).

  Go strings are byte strings; they are modelled as [string] (one
  [ascii] per byte). *)

From Stdlib Require Import ZArith Ascii String List Lia Bool DecimalString.
From stdpp Require Import base strings gmap list.

Local Open Scope Z_scope.

(** ** Byte strings *)

Module Bytes.

Definition nl : ascii := "010"%char.
Definition tab : ascii := "009"%char.
Definition dquote : ascii := "034"%char.

Definition q : string := String dquote "".
Definition NL : string := String nl "".
Definition TAB : string := String tab "".

(** [s[:n]] *)
Fixpoint take (n : nat) (s : string) : string :=
  match n, s with
  | S n', String a s' => String a (take n' s')
  | _, _ => ""
  end.

(** [strings.HasPrefix(s, p)], returning what follows the prefix. *)
Fixpoint strip_prefix (p s : string) : option string :=
  match p, s with
  | EmptyString, _ => Some s
  | String a p', String b s' =>
      if Ascii.eqb a b then strip_prefix p' s' else None
  | String _ _, EmptyString => None
  end.

Definition has_prefix (p s : string) : bool :=
  match strip_prefix p s with Some _ => true | None => false end.

(** [strings.Contains(s, sub)] *)
Fixpoint contains (sub s : string) : bool :=
  has_prefix sub s ||
  match s with
  | EmptyString => false
  | String _ s' => contains sub s'
  end.

Definition concat (l : list string) : string :=
  fold_right String.append "" l.

(** Lines of a text, each one terminated by a line feed. *)
Definition lines (l : list string) : string :=
  concat (map (fun s => s +:+ NL) l).

(** [strings.Join(l, sep)] with the double quote as separator: the
    pieces of a line of text around its double quotes. *)
Fixpoint quoted (l : list string) : string :=
  match l with
  | [] => ""
  | [s] => s
  | s :: l' => s +:+ q +:+ quoted l'
  end.

End Bytes.

Import Bytes.

(** ** Package regexp, as far as [New] uses it

    The syntax covers the operators of the route pattern.  Matching is
    leftmost-first, as documented for package regexp: among the matches
    that start leftmost, the one a backtracking search finds first.  The
    search is written with a continuation for the rest of the pattern;
    an iteration of a star that reads nothing is not repeated.  The
    pattern is ASCII and its dot and class read one byte at a time,
    which gives the same groups as reading runes. *)

Module regexp.

Inductive Regexp : Type :=
| Lit (s : string)                 (* a literal, dots escaped in the source *)
| AnyCharNotNL                     (* [.] *)
| CharClass (cs : list ascii)      (* [[...]] *)
| Concat (r1 r2 : Regexp)
| Alternate (r1 r2 : Regexp)       (* [r1|r2], [r1] preferred *)
| Star (r : Regexp)                (* greedy [r*] *)
| Capture (n : nat) (r : Regexp).  (* the n-th parenthesised group *)

(** The text of the groups matched so far, most recent first. *)
Definition Caps : Type := list (nat * string).

Fixpoint group (n : nat) (c : Caps) : string :=
  match c with
  | [] => ""
  | (m, s) :: c' => if Nat.eqb n m then s else group n c'
  end.

Definition mem (a : ascii) (cs : list ascii) : bool :=
  existsb (Ascii.eqb a) cs.

(** What was read between input [s] and its suffix [s']. *)
Definition consumed (s s' : string) : string :=
  take (String.length s - String.length s') s.

Fixpoint bt (r : Regexp) (s : string) (c : Caps)
            (k : string -> Caps -> option Caps) {struct r} : option Caps :=
  match r with
  | Lit l =>
      match strip_prefix l s with
      | Some s' => k s' c
      | None => None
      end
  | AnyCharNotNL =>
      match s with
      | String a s' => if Ascii.eqb a nl then None else k s' c
      | EmptyString => None
      end
  | CharClass cs =>
      match s with
      | String a s' => if mem a cs then k s' c else None
      | EmptyString => None
      end
  | Concat r1 r2 => bt r1 s c (fun s' c' => bt r2 s' c' k)
  | Alternate r1 r2 =>
      match bt r1 s c k with
      | Some x => Some x
      | None => bt r2 s c k
      end
  | Star r1 =>
      (fix loop (fuel : nat) (s : string) (c : Caps) {struct fuel}
         : option Caps :=
         match fuel with
         | O => k s c
         | S fuel' =>
             match bt r1 s c
                     (fun s' c' =>
                        if (String.length s' <? String.length s)%nat
                        then loop fuel' s' c' else None) with
             | Some x => Some x
             | None => k s c
             end
         end) (String.length s) s c
  | Capture n r1 =>
      bt r1 s c (fun s' c' => k s' ((n, consumed s s') :: c'))
  end.

(** A match of [r] that starts exactly at the head of [s]. *)
Definition match_here (r : Regexp) (s : string) : option Caps :=
  bt r s [] (fun s' c => Some ((0%nat, consumed s s') :: c)).

(** The leftmost start position that admits a match. *)
Fixpoint find (r : Regexp) (s : string) : option Caps :=
  match match_here r s with
  | Some c => Some c
  | None =>
      match s with
      | EmptyString => None
      | String _ s' => find r s'
      end
  end.

(** [Regexp.FindStringSubmatch] for a pattern with [n] groups: the
    whole match followed by the groups, or nil when nothing matches. *)
Definition FindStringSubmatch (n : nat) (r : Regexp) (s : string)
  : list string :=
  match find r s with
  | Some c => map (fun i => group i c) (seq 0 (S n))
  | None => []
  end.

(** Whether a pattern has no group. *)
Fixpoint no_capture (r : Regexp) : bool :=
  match r with
  | Lit _ | AnyCharNotNL | CharClass _ => true
  | Concat r1 r2 | Alternate r1 r2 => no_capture r1 && no_capture r2
  | Star r1 => no_capture r1
  | Capture _ _ => false
  end.

Fixpoint alternatives (l : string) (ls : list string) : Regexp :=
  match ls with
  | [] => Lit l
  | l' :: ls' => Alternate (Lit l) (alternatives l' ls')
  end.

End regexp.

Import regexp.

(** ** The route pattern of [New] *)

(** The asset names of the second group, in the order of the source. *)
Definition asset_names : list string :=
  [ "index.html"; "doc.json"; "favicon-16x16.png"; "favicon-32x32.png";
    "/oauth2-redirect.html";
    "swagger-ui.css"; "swagger-ui.css.map";
    "swagger-ui.js"; "swagger-ui.js.map";
    "swagger-ui-bundle.js"; "swagger-ui-bundle.js.map";
    "swagger-ui-standalone-preset.js"; "swagger-ui-standalone-preset.js.map" ].

(** The pattern compiled by [New]: group 1 is [.*], group 2 is the
    alternation of the names of [asset_names] in this order (each dot
    escaped), and the tail is [[?|.]*]. *)
Definition matcher : Regexp :=
  Concat (Capture 1 (Star AnyCharNotNL))
   (Concat (Capture 2 (alternatives "index.html" (tl asset_names)))
           (Star (CharClass ["?"%char; "|"%char; "."%char]))).

Definition matcher_FindStringSubmatch (s : string) : list string :=
  FindStringSubmatch 2 matcher s.

(** The first of [names] that [s] starts with, and what follows it. *)
Fixpoint first_match (names : list string) (s : string)
  : option (string * string) :=
  match names with
  | [] => None
  | l :: names' =>
      match strip_prefix l s with
      | Some s' => Some (l, s')
      | None => first_match names' s
      end
  end.

(** Whether a string is free of line feeds. *)
Fixpoint no_newline (s : string) : bool :=
  match s with
  | EmptyString => true
  | String a s' => negb (Ascii.eqb a nl) && no_newline s'
  end.

(** The greedy [.*] read as a recursion on the input: the longest run of
    bytes other than line feed after which the rest of the pattern,
    [k], matches. *)
Fixpoint greedy_dot (k : string -> option Caps) (s : string) : option Caps :=
  match s with
  | EmptyString => k s
  | String a s' =>
      if Ascii.eqb a nl then k s
      else match greedy_dot k s' with
           | Some x => Some x
           | None => k s
           end
  end.

(** The names that can come out of the second group. *)
Definition reachable_names : list string :=
  [ "index.html"; "doc.json"; "favicon-16x16.png"; "favicon-32x32.png";
    "/oauth2-redirect.html"; "swagger-ui.css"; "swagger-ui.js";
    "swagger-ui-bundle.js"; "swagger-ui-standalone-preset.js" ].

(** ** Package path/filepath *)

(** [filepath.Ext]: the loop runs from the last byte towards the first,
    stops at a path separator, and returns the suffix that starts at the
    first dot it meets.  [rest] is the suffix already passed. *)
Fixpoint Ext_scan (rev_path rest : string) : string :=
  match rev_path with
  | EmptyString => ""
  | String a r =>
      if Ascii.eqb a "/"%char then ""
      else if Ascii.eqb a "."%char then String a rest
      else Ext_scan r (String a rest)
  end.

Definition filepath_Ext (path : string) : string :=
  Ext_scan (String.rev path) "".

(** ** Package html/template, as far as the handler uses it

    The engine is part of the Go distribution, not of this repository.
    It is modelled by what it does to the one template of the handler:
    it parses the text into text nodes and actions, strips comments
    from the text, and pipes the value of every action through the
    escaper of the context the action stands in.  The replacement
    tables are those of current Go releases. *)

Module template.

Definition hex_digit (n : N) : ascii :=
  match n with
  | 0 => "0" | 1 => "1" | 2 => "2" | 3 => "3" | 4 => "4" | 5 => "5"
  | 6 => "6" | 7 => "7" | 8 => "8" | 9 => "9" | 10 => "a" | 11 => "b"
  | 12 => "c" | 13 => "d" | 14 => "e" | _ => "f"
  end%N%char.

(** A backslash, the letter u, and four hexadecimal digits. *)
Definition unicode_escape (n : N) : string :=
  "\u00" +:+ String (hex_digit (n / 16)) (String (hex_digit (n mod 16)) "").

(** [htmlReplacementTable]; NUL becomes U+FFFD in UTF-8. *)
Definition htmlReplacementTable (a : ascii) : option string :=
  match N_of_ascii a with
  | 0 => Some (String "239" (String "191" (String "189" "")))
  | 34 => Some "&#34;"
  | 38 => Some "&amp;"
  | 39 => Some "&#39;"
  | 43 => Some "&#43;"
  | 60 => Some "&lt;"
  | 62 => Some "&gt;"
  | _ => None
  end%N.

(** [lowUnicodeReplacementTable] followed by [jsStrReplacementTable]. *)
Definition jsStrReplacementTable (a : ascii) : option string :=
  let n := N_of_ascii a in
  match n with
  | 9 => Some "\t"
  | 10 => Some "\n"
  | 12 => Some "\f"
  | 13 => Some "\r"
  | 34 | 38 | 39 | 43 | 60 | 62 | 96 => Some (unicode_escape n)
  | 47 => Some "\/"
  | 92 => Some "\\"
  | _ => if (n <? 32)%N then Some (unicode_escape n) else None
  end%N.

(** [htmlReplacer(s, table, true)]: bytes outside the table are kept. *)
Fixpoint htmlReplacer (s : string) : string :=
  match s with
  | EmptyString => ""
  | String a s' =>
      match htmlReplacementTable a with
      | Some r => r +:+ htmlReplacer s'
      | None => String a (htmlReplacer s')
      end
  end.

(** [replace(s, jsStrReplacementTable)]; U+2028 and U+2029, three bytes
    each in UTF-8, are the two runes escaped outside the table. *)
Fixpoint replace (s : string) : string :=
  match s with
  | EmptyString => ""
  | String "226" (String "128" (String "168" s')) => "\u2028" +:+ replace s'
  | String "226" (String "128" (String "169" s')) => "\u2029" +:+ replace s'
  | String a s' =>
      match jsStrReplacementTable a with
      | Some r => r +:+ replace s'
      | None => String a (replace s')
      end
  end.

(** The escaper of an action inside [<title>]. *)
Definition rcdataEscaper (s : string) : string := htmlReplacer s.

(** The escaper of an action inside a quoted JavaScript string. *)
Definition jsStrEscaper (s : string) : string := replace s.

(** The values that reach [jsValEscaper] here: a [template.JS], or a
    bool or an int that goes through [json.Marshal]. *)
Inductive Scalar : Type :=
| GoBool (b : bool)
| GoInt (z : Z).

Inductive JSArg : Type :=
| OfJS (js : string)
| OfScalar (x : Scalar).

Definition json_Marshal (x : Scalar) : string :=
  match x with
  | GoBool true => "true"
  | GoBool false => "false"
  | GoInt z => NilZero.string_of_int (Z.to_int z)
  end.

Definition isJSIdentPart (a : ascii) : bool :=
  let n := N_of_ascii a in
  ((n =? 36) || ((48 <=? n) && (n <=? 57)) || ((65 <=? n) && (n <=? 90))
   || (n =? 95) || ((97 <=? n) && (n <=? 122)))%N.

Definition first_byte (s : string) : ascii :=
  match s with String a _ => a | EmptyString => "000" end.

Definition last_byte (s : string) : ascii := first_byte (String.rev s).

(** [jsValEscaper]: a [template.JS] is written as it is; marshalled
    text that starts or ends like an identifier or a number is padded
    with a space on both sides so that it cannot run into a keyword. *)
Definition jsValEscaper (a : JSArg) : string :=
  match a with
  | OfJS js => js
  | OfScalar x =>
      let b := json_Marshal x in
      if String.eqb b "" then " null "
      else if isJSIdentPart (first_byte b) || isJSIdentPart (last_byte b)
           then " " +:+ b +:+ " "
           else b
  end.

(** A text node keeps the source text in pieces: the comments, which
    the escaper removes, and the rest. *)
Inductive Segment : Type :=
| Keep (s : string)
| Comment (s : string).

Inductive Node (D : Type) : Type :=
| TextNode (segs : list Segment)
| ActionNode (field : string) (cmd : D -> string).

Arguments TextNode {D} segs.
Arguments ActionNode {D} field cmd.

Definition segment_source (g : Segment) : string :=
  match g with Keep s => s | Comment s => s end.

Definition segment_output (g : Segment) : string :=
  match g with Keep s => s | Comment _ => "" end.

(** The text a node was parsed from. *)
Definition node_source {D} (n : Node D) : string :=
  match n with
  | TextNode segs => concat (map segment_source segs)
  | ActionNode field _ => "{{." +:+ field +:+ "}}"
  end.

(** What the node hands to the writer when executed on [d]. *)
Definition node_output {D} (d : D) (n : Node D) : string :=
  match n with
  | TextNode segs => concat (map segment_output segs)
  | ActionNode _ cmd => cmd d
  end.

End template.

Import template.

(** ** The configuration types *)

(** Package webdav: of [Handler], the prefix and the file system.
    The field [FileSystem] is an interface value; here it is always a
    file system, so a provider whose [FileSystem] is nil, on which the
    call [OpenFile] of the handler panics, is outside the model.  The
    properties of static files below are stated on what [OpenFile]
    returns, and so concern providers with a file system only. *)
Module webdav.

Record File : Type := {
  ReadAll : option string            (* what [buf.ReadFrom(f)] reads *)
}.

Record FileSystem : Type := {
  OpenFile : string -> option File   (* [None]: an error is returned *)
}.

Record Handler : Type := {
  Prefix : string;
  Files : FileSystem                 (* the field [FileSystem], not nil *)
}.

End webdav.

Module swaggerConfig.

Record t : Type := {
  URL : string;
  DocExpansion : string;
  Title : string;
  Oauth2RedirectURL : string;        (* a [template.JS] *)
  DefaultModelsExpandDepth : Z;
  DeepLinking : bool;
  PersistAuthorization : bool;
  Oauth2DefaultClientID : string
}.

End swaggerConfig.

(** [DefaultModelsExpandDepth] is a Go [int], read as an integer. *)
Module Config.

Record t : Type := {
  URL : string;
  DocExpansion : string;
  InstanceName : string;
  Title : string;
  DefaultModelsExpandDepth : Z;
  DeepLinking : bool;
  PersistAuthorization : bool;
  Oauth2DefaultClientID : string;
  Handler : option webdav.Handler    (* [None]: the nil pointer *)
}.

End Config.

Definition oauth2_redirect_expr : string :=
  "`${window.location.protocol}//${window.location.host}$"
  +:+ "{window.location.pathname.split('/').slice(0, window.location.pathname.split('/').length - 1).join('/')}"
  +:+ "/oauth2-redirect.html`".

Definition toSwaggerConfig (config : Config.t) : swaggerConfig.t :=
  {| swaggerConfig.URL := Config.URL config;
     swaggerConfig.DeepLinking := Config.DeepLinking config;
     swaggerConfig.DocExpansion := Config.DocExpansion config;
     swaggerConfig.DefaultModelsExpandDepth :=
       Config.DefaultModelsExpandDepth config;
     swaggerConfig.Oauth2RedirectURL := oauth2_redirect_expr;
     swaggerConfig.Title := Config.Title config;
     swaggerConfig.PersistAuthorization := Config.PersistAuthorization config;
     swaggerConfig.Oauth2DefaultClientID :=
       Config.Oauth2DefaultClientID config |}.

(** ** The template [swaggerIndexTpl]

    The text between the actions, in source order. *)

Definition tpl_html_comment : string :=
  "<!-- HTML for static distribution bundle build -->".

Definition tpl_js_comment : string := "// Build a system".

Definition tpl_doctype : string :=
  lines
    [ "";
      "<!DOCTYPE html>";
      quoted ["<html lang="; "en"; ">"];
      "<head>";
      quoted ["  <meta charset="; "UTF-8"; ">"] ]
  +:+ "  <title>".

Definition tpl_head_and_icons : string :=
  lines
    [ "</title>";
      quoted ["  <link href="; "https://fonts.googleapis.com/css?family=Open+Sans:400,700|Source+Code+Pro:300,600|Titillium+Web:400,600,700"; " rel="; "stylesheet"; ">"];
      quoted ["  <link rel="; "stylesheet"; " type="; "text/css"; " href="; "./swagger-ui.css"; " >"];
      quoted ["  <link rel="; "icon"; " type="; "image/png"; " href="; "./favicon-32x32.png"; " sizes="; "32x32"; " />"];
      quoted ["  <link rel="; "icon"; " type="; "image/png"; " href="; "./favicon-16x16.png"; " sizes="; "16x16"; " />"];
      "  <style>";
      "    html";
      "    {";
      "        box-sizing: border-box;";
      "        overflow: -moz-scrollbars-vertical;";
      "        overflow-y: scroll;";
      "    }";
      "    *,";
      "    *:before,";
      "    *:after";
      "    {";
      "        box-sizing: inherit;";
      "    }";
      "";
      "    body {";
      "      margin:0;";
      "      background: #fafafa;";
      "    }";
      "  </style>";
      "</head>";
      "";
      "<body>";
      "";
      quoted ["<svg xmlns="; "http://www.w3.org/2000/svg"; " xmlns:xlink="; "http://www.w3.org/1999/xlink"; " style="; "position:absolute;width:0;height:0"; ">"];
      "  <defs>";
      quoted ["    <symbol viewBox="; "0 0 20 20"; " id="; "unlocked"; ">"];
      quoted ["          <path d="; "M15.8 8H14V5.6C14 2.703 12.665 1 10 1 7.334 1 6 2.703 6 5.6V6h2v-.801C8 3.754 8.797 3 10 3c1.203 0 2 .754 2 2.199V8H4c-.553 0-1 .646-1 1.199V17c0 .549.428 1.139.951 1.307l1.197.387C5.672 18.861 6.55 19 7.1 19h5.8c.549 0 1.428-.139 1.951-.307l1.196-.387c.524-.167.953-.757.953-1.306V9.199C17 8.646 16.352 8 15.8 8z"; "></path>"];
      "    </symbol>";
      "";
      quoted ["    <symbol viewBox="; "0 0 20 20"; " id="; "locked"; ">"];
      quoted ["      <path d="; "M15.8 8H14V5.6C14 2.703 12.665 1 10 1 7.334 1 6 2.703 6 5.6V8H4c-.553 0-1 .646-1 1.199V17c0 .549.428 1.139.951 1.307l1.197.387C5.672 18.861 6.55 19 7.1 19h5.8c.549 0 1.428-.139 1.951-.307l1.196-.387c.524-.167.953-.757.953-1.306V9.199C17 8.646 16.352 8 15.8 8zM12 8H8V5.199C8 3.754 8.797 3 10 3c1.203 0 2 .754 2 2.199V8z"; "/>"];
      "    </symbol>";
      "";
      quoted ["    <symbol viewBox="; "0 0 20 20"; " id="; "close"; ">"];
      quoted ["      <path d="; "M14.348 14.849c-.469.469-1.229.469-1.697 0L10 11.819l-2.651 3.029c-.469.469-1.229.469-1.697 0-.469-.469-.469-1.229 0-1.697l2.758-3.15-2.759-3.152c-.469-.469-.469-1.228 0-1.697.469-.469 1.228-.469 1.697 0L10 8.183l2.651-3.031c.469-.469 1.228-.469 1.697 0 .469.469.469 1.229 0 1.697l-2.758 3.152 2.758 3.15c.469.469.469 1.229 0 1.698z"; "/>"];
      "    </symbol>";
      "";
      quoted ["    <symbol viewBox="; "0 0 20 20"; " id="; "large-arrow"; ">"];
      quoted ["      <path d="; "M13.25 10L6.109 2.58c-.268-.27-.268-.707 0-.979.268-.27.701-.27.969 0l7.83 7.908c.268.271.268.709 0 .979l-7.83 7.908c-.268.271-.701.27-.969 0-.268-.269-.268-.707 0-.979L13.25 10z"; "/>"];
      "    </symbol>";
      "";
      quoted ["    <symbol viewBox="; "0 0 20 20"; " id="; "large-arrow-down"; ">"];
      quoted ["      <path d="; "M17.418 6.109c.272-.268.709-.268.979 0s.271.701 0 .969l-7.908 7.83c-.27.268-.707.268-.979 0l-7.908-7.83c-.27-.268-.27-.701 0-.969.271-.268.709-.268.979 0L10 13.25l7.418-7.141z"; "/>"];
      "    </symbol>";
      "";
      "";
      quoted ["    <symbol viewBox="; "0 0 24 24"; " id="; "jump-to"; ">"];
      quoted ["      <path d="; "M19 7v4H5.83l3.58-3.59L8 6l-6 6 6 6 1.41-1.41L5.83 13H21V7z"; "/>"];
      "    </symbol>";
      "";
      quoted ["    <symbol viewBox="; "0 0 24 24"; " id="; "expand"; ">"];
      quoted ["      <path d="; "M10 18h4v-2h-4v2zM3 6v2h18V6H3zm3 7h12v-2H6v2z"; "/>"];
      "    </symbol>";
      "";
      "  </defs>";
      "</svg>";
      "";
      quoted ["<div id="; "swagger-ui"; "></div>"];
      "";
      quoted ["<script src="; "./swagger-ui-bundle.js"; "> </script>"];
      quoted ["<script src="; "./swagger-ui-standalone-preset.js"; "> </script>"];
      "<script>";
      "window.onload = function() {" ]
  +:+ "  ".

Definition tpl_bundle_open : string :=
  lines
    [ "";
      "  const ui = SwaggerUIBundle({" ]
  +:+ quoted ["    url: "; ""].

Definition tpl_after_url : string :=
  lines
    [ quoted [""; ","];
      "    dom_id: '#swagger-ui',";
      "    validatorUrl: null," ]
  +:+ "    oauth2RedirectUrl: ".

Definition tpl_after_redirect : string :=
  lines
    [ "," ]
  +:+ "    persistAuthorization: ".

Definition tpl_after_persist : string :=
  lines
    [ ",";
      "    presets: [";
      "      SwaggerUIBundle.presets.apis,";
      "      SwaggerUIStandalonePreset";
      "    ],";
      "    plugins: [";
      "      SwaggerUIBundle.plugins.DownloadUrl";
      "    ],";
      TAB +:+ quoted ["layout: "; "StandaloneLayout"; ","] ]
  +:+ quoted ["    docExpansion: "; ""].

Definition tpl_after_expansion : string :=
  lines
    [ quoted [""; ","] ]
  +:+ TAB +:+ "deepLinking: ".

Definition tpl_after_deeplinking : string :=
  lines
    [ "," ]
  +:+ TAB +:+ "defaultModelsExpandDepth: ".

Definition tpl_after_depth : string :=
  lines
    [ "";
      "  })";
      "" ]
  +:+ quoted ["  const defaultClientId = "; ""].

Definition tpl_tail : string :=
  lines
    [ quoted [""; ";"];
      "  if (defaultClientId) {";
      "    ui.initOAuth({";
      "      clientId: defaultClientId";
      "    })";
      "  }";
      "";
      "  window.ui = ui";
      "}";
      "</script>";
      "</body>";
      "";
      "</html>" ].

Definition swaggerIndexTpl : string :=
  concat
    [ tpl_html_comment; tpl_doctype; "{{.Title}}";
      tpl_head_and_icons; tpl_js_comment; tpl_bundle_open; "{{.URL}}";
      tpl_after_url; "{{.Oauth2RedirectURL}}";
      tpl_after_redirect; "{{.PersistAuthorization}}";
      tpl_after_persist; "{{.DocExpansion}}";
      tpl_after_expansion; "{{.DeepLinking}}";
      tpl_after_deeplinking; "{{.DefaultModelsExpandDepth}}";
      tpl_after_depth; "{{.Oauth2DefaultClientID}}";
      tpl_tail ].

(** The template [index] as parsed and escaped: the title stands in an
    RCDATA element, the other actions inside the script, three of them
    between double quotes. *)
Definition index : list (Node swaggerConfig.t) :=
  [ TextNode [Comment tpl_html_comment; Keep tpl_doctype];
    ActionNode "Title" (fun d => rcdataEscaper (swaggerConfig.Title d));
    TextNode [Keep tpl_head_and_icons; Comment tpl_js_comment;
              Keep tpl_bundle_open];
    ActionNode "URL" (fun d => jsStrEscaper (swaggerConfig.URL d));
    TextNode [Keep tpl_after_url];
    ActionNode "Oauth2RedirectURL"
      (fun d => jsValEscaper (OfJS (swaggerConfig.Oauth2RedirectURL d)));
    TextNode [Keep tpl_after_redirect];
    ActionNode "PersistAuthorization"
      (fun d => jsValEscaper
                  (OfScalar (GoBool (swaggerConfig.PersistAuthorization d))));
    TextNode [Keep tpl_after_persist];
    ActionNode "DocExpansion"
      (fun d => jsStrEscaper (swaggerConfig.DocExpansion d));
    TextNode [Keep tpl_after_expansion];
    ActionNode "DeepLinking"
      (fun d => jsValEscaper (OfScalar (GoBool (swaggerConfig.DeepLinking d))));
    TextNode [Keep tpl_after_deeplinking];
    ActionNode "DefaultModelsExpandDepth"
      (fun d => jsValEscaper
                  (OfScalar (GoInt (swaggerConfig.DefaultModelsExpandDepth d))));
    TextNode [Keep tpl_after_depth];
    ActionNode "Oauth2DefaultClientID"
      (fun d => jsStrEscaper (swaggerConfig.Oauth2DefaultClientID d));
    TextNode [Keep tpl_tail] ].

(** ** Requests, responses and the calls the handler makes *)

Record Request : Type := {
  Method : string;       (* [ctx.Request.Method()] *)
  URI : string;          (* [ctx.Request.URI().String()] *)
  Param_any : string     (* [ctx.Param] of the wildcard segment [any] *)
}.

Record Response : Type := {
  StatusCode : Z;
  Header : gmap string string;
  Body : string;
  Aborted : bool
}.

(** The calls that leave the handler, in the order they are made. *)
Inductive Event : Type :=
| EvFindStringSubmatch (uri : string)
| EvSetPrefix (prefix : string)
| EvExecute
| EvReadDoc (name : string)
| EvOpenFile (path : string)
| EvReadFrom
| EvWrite (p : string)
| EvString (code : Z) (body : string).

(** Whether an event is a file open, a document lookup or a render. *)
Definition is_backend_call (e : Event) : bool :=
  match e with
  | EvExecute | EvReadDoc _ | EvOpenFile _ | EvReadFrom => true
  | _ => false
  end.

(** Whether an event is a write of body bytes. *)
Definition is_write (e : Event) : bool :=
  match e with
  | EvWrite _ | EvString _ _ => true
  | _ => false
  end.

(** What the closure returned by [New] captures: the configuration
    behind the pointer [config] and the [sync.Once].  The provider
    behind [config.Handler] is held by value; the handler is its only
    writer here. *)
Record Closure : Type := {
  config : Config.t;
  once : bool
}.

(** The closure, the response under construction and the calls made. *)
Record Machine : Type := {
  closure : Closure;
  ctx : Response;
  trace : list Event
}.

Definition MethodGet : string := "GET".
Definition StatusOK : Z := 200.
Definition StatusNotFound : Z := 404.
Definition StatusMethodNotAllowed : Z := 405.
Definition StatusInternalServerError : Z := 500.

(** [http.StatusText] on the codes above. *)
Definition StatusText (code : Z) : string :=
  if code =? 200 then "OK"
  else if code =? 404 then "Not Found"
  else if code =? 405 then "Method Not Allowed"
  else if code =? 500 then "Internal Server Error"
  else "".

(** A response nothing has been written to. *)
Definition fresh : Response :=
  {| StatusCode := StatusOK; Header := ∅; Body := ""; Aborted := false |}.

(** ** Computations of the handler: state, and [None] for a panic *)

Definition M (A : Type) : Type := Machine -> option (A * Machine).

Definition ret {A} (a : A) : M A := fun m => Some (a, m).

Definition bind {A B} (c : M A) (k : A -> M B) : M B :=
  fun m => match c m with
           | Some (a, m') => k a m'
           | None => None
           end.

Definition panic {A} : M A := fun _ => None.

Declare Scope go_scope.
Delimit Scope go_scope with go.
Notation "x <- c ;; k" := (bind c (fun x => k))
  (at level 100, c at next level, right associativity) : go_scope.
Notation "c ;; k" := (bind c (fun _ => k))
  (at level 100, right associativity) : go_scope.

Local Open Scope go_scope.

Definition emit (e : Event) : M unit :=
  fun m => Some (tt, {| closure := closure m; ctx := ctx m;
                        trace := trace m ++ [e] |}).

Definition with_ctx (f : Response -> Response) : M unit :=
  fun m => Some (tt, {| closure := closure m; ctx := f (ctx m);
                        trace := trace m |}).

Definition with_closure (f : Closure -> Closure) : M unit :=
  fun m => Some (tt, {| closure := f (closure m); ctx := ctx m;
                        trace := trace m |}).

Definition get_config : M Config.t :=
  fun m => Some (config (closure m), m).

(** A step that panics when it has no result. *)
Definition lift {A} (o : option A) : M A :=
  match o with
  | Some a => ret a
  | None => panic
  end.

(** [config.Handler], dereferenced: a nil pointer panics. *)
Definition config_Handler : M webdav.Handler :=
  fun m => match Config.Handler (config (closure m)) with
           | Some h => Some (h, m)
           | None => None
           end.

(** [ctx.AbortWithStatus(code)] *)
Definition ctx_AbortWithStatus (code : Z) : M unit :=
  with_ctx (fun r => {| StatusCode := code; Header := Header r;
                        Body := Body r; Aborted := true |}).

(** [ctx.Header(key, value)] *)
Definition ctx_Header (key value : string) : M unit :=
  with_ctx (fun r => {| StatusCode := StatusCode r;
                        Header := <[key := value]> (Header r);
                        Body := Body r; Aborted := Aborted r |}).

(** [ctx.String(code, text)]: status, plain-text content type, body. *)
Definition ctx_String (code : Z) (text : string) : M unit :=
  emit (EvString code text) ;;
  with_ctx (fun r => {| StatusCode := code;
                        Header := <["Content-Type" :=
                                    "text/plain; charset=utf-8"]> (Header r);
                        Body := Body r +:+ text; Aborted := Aborted r |}).

Definition set_Prefix (h : webdav.Handler) (prefix : string) : webdav.Handler :=
  {| webdav.Prefix := prefix; webdav.Files := webdav.Files h |}.

Definition set_Handler (c : Config.t) (h : option webdav.Handler) : Config.t :=
  {| Config.URL := Config.URL c;
     Config.DocExpansion := Config.DocExpansion c;
     Config.InstanceName := Config.InstanceName c;
     Config.Title := Config.Title c;
     Config.DefaultModelsExpandDepth := Config.DefaultModelsExpandDepth c;
     Config.DeepLinking := Config.DeepLinking c;
     Config.PersistAuthorization := Config.PersistAuthorization c;
     Config.Oauth2DefaultClientID := Config.Oauth2DefaultClientID c;
     Config.Handler := h |}.

(** [config.Handler.Prefix = prefix] *)
Definition write_Prefix (prefix : string) : M unit :=
  h <- config_Handler ;;
  emit (EvSetPrefix prefix) ;;
  with_closure (fun cl =>
    {| config := set_Handler (config cl) (Some (set_Prefix h prefix));
       once := once cl |}).

(** [once.Do(f)] *)
Definition once_Do (f : M unit) : M unit :=
  fun m =>
    if once (closure m) then ret tt m
    else (f ;;
          with_closure (fun cl => {| config := config cl; once := true |})) m.

(** The switch on [filepath.Ext(path)]. *)
Definition set_content_type (ext : string) : M unit :=
  if String.eqb ext ".html" then
    ctx_Header "Content-Type" "text/html; charset=utf-8"
  else if String.eqb ext ".css" then
    ctx_Header "Content-Type" "text/css; charset=utf-8"
  else if String.eqb ext ".js" then
    ctx_Header "Content-Type" "application/javascript"
  else if String.eqb ext ".png" then
    ctx_Header "Content-Type" "image/png"
  else if String.eqb ext ".json" then
    ctx_Header "Content-Type" "application/json; charset=utf-8"
  else ret tt.

(** The leaf: [matches[2]] when the wildcard segment is set, the shell
    page otherwise.  [None]: the index is out of range. *)
Definition derive_path (matches : list string) (any : string) : option string :=
  if negb (String.eqb any "") then matches !! 2%nat
  else Some "index.html".

(** The prefix: [matches[1]] when the pattern matched, the whole URI
    otherwise. *)
Definition derive_prefix (matches : list string) (uri : string) : option string :=
  if negb (length matches =? 3)%nat then Some uri
  else matches !! 1%nat.

(** The first test of the handler. *)
Definition not_GET (req : Request) : bool :=
  negb (String.eqb (Method req) MethodGet).

(** The second test: no match although the wildcard segment is set. *)
Definition not_found (matches : list string) (req : Request) : bool :=
  negb (length matches =? 3)%nat && negb (String.eqb (Param_any req) "").

(** The leaf a request is served with; [None] when it is rejected. *)
Definition leaf (req : Request) : option string :=
  if not_GET req then None
  else
    let matches := matcher_FindStringSubmatch (URI req) in
    if not_found matches req then None
    else derive_path matches (Param_any req).

(** The prefix derived for a request. *)
Definition prefix_of (req : Request) : option string :=
  derive_prefix (matcher_FindStringSubmatch (URI req)) (URI req).

Section Handler.

(** What the handler reaches outside the package: the registry of
    package swag, the shared provider of package swaggerFiles, and
    whether the framework reports an error for a write of given bytes
    (a failed write leaves the body as it was). *)
Variable swag_Name : string.
Variable swag_ReadDoc : string -> option string.
Variable swaggerFiles_Handler : webdav.Handler.
Variable write_err : string -> bool.

Definition defaultConfig : Config.t :=
  {| Config.URL := "doc.json";
     Config.DocExpansion := "list";
     Config.InstanceName := swag_Name;
     Config.Title := "Swagger UI";
     Config.DefaultModelsExpandDepth := 1;
     Config.DeepLinking := true;
     Config.PersistAuthorization := false;
     Config.Oauth2DefaultClientID := "";
     Config.Handler := None |}.

Definition or_default (s d : string) : string :=
  if String.eqb s "" then d else s.

(** The configuration [New] leaves behind the pointer [config]: the
    first argument, or [defaultConfig], with every zero-valued field
    filled in.  The arguments are pointers to configurations; a nil
    pointer among them is not modelled. *)
Definition New_config (cfg : list Config.t) : Config.t :=
  let config := match cfg with
                | c :: _ => c
                | [] => defaultConfig
                end in
  {| Config.URL := or_default (Config.URL config) "doc.json";
     Config.DocExpansion := or_default (Config.DocExpansion config) "list";
     Config.InstanceName := or_default (Config.InstanceName config) swag_Name;
     Config.Title := or_default (Config.Title config) "Swagger UI";
     Config.DefaultModelsExpandDepth :=
       (if Config.DefaultModelsExpandDepth config =? 0 then 1
        else Config.DefaultModelsExpandDepth config);
     Config.DeepLinking := Config.DeepLinking config;
     Config.PersistAuthorization := Config.PersistAuthorization config;
     Config.Oauth2DefaultClientID := Config.Oauth2DefaultClientID config;
     Config.Handler :=
       match Config.Handler config with
       | Some h => Some h
       | None => Some swaggerFiles_Handler
       end |}.

(** [New]: the state the returned handler starts from. *)
Definition New (cfg : list Config.t) : Closure :=
  {| config := New_config cfg; once := false |}.

(** [ctx.Write(p)]: [true] when no error is returned. *)
Definition ctx_Write (p : string) : M bool :=
  emit (EvWrite p) ;;
  if write_err p then ret false
  else
    with_ctx (fun r => {| StatusCode := StatusCode r; Header := Header r;
                          Body := Body r +:+ p; Aborted := Aborted r |}) ;;
    ret true.

(** The writes of an execution: one per node, up to the first error. *)
Fixpoint write_all (ps : list string) : M bool :=
  match ps with
  | [] => ret true
  | p :: ps' =>
      ok <- ctx_Write p ;;
      if ok then write_all ps' else ret false
  end.

(** [index.Execute(ctx, data)]: [true] when no error is returned. *)
Definition Execute (t : list (Node swaggerConfig.t)) (data : swaggerConfig.t)
  : M bool :=
  emit EvExecute ;;
  write_all (map (node_output data) t).

(** [swag.ReadDoc(name)] *)
Definition ReadDoc (name : string) : M (option string) :=
  emit (EvReadDoc name) ;;
  ret (swag_ReadDoc name).

(** [config.Handler.FileSystem.OpenFile(c, path, os.O_RDONLY, 0)] *)
Definition OpenFile (path : string) : M (option webdav.File) :=
  h <- config_Handler ;;
  emit (EvOpenFile path) ;;
  ret (webdav.OpenFile (webdav.Files h) path).

(** [buf.ReadFrom(f)] *)
Definition ReadFrom (f : webdav.File) : M (option string) :=
  emit EvReadFrom ;;
  ret (webdav.ReadAll f).

Definition FindStringSubmatch_uri (uri : string) : M (list string) :=
  emit (EvFindStringSubmatch uri) ;;
  ret (matcher_FindStringSubmatch uri).

(** The switch on [path]. *)
Definition dispatch (path : string) : M unit :=
  if String.eqb path "index.html" then
    config <- get_config ;;
    _ <- Execute index (toSwaggerConfig config) ;;
    ret tt
  else if String.eqb path "doc.json" then
    config <- get_config ;;
    doc <- ReadDoc (Config.InstanceName config) ;;
    match doc with
    | None => ctx_AbortWithStatus StatusInternalServerError
    | Some doc =>
        ok <- ctx_Write doc ;;
        if ok then ret tt
        else ctx_AbortWithStatus StatusInternalServerError
    end
  else
    f <- OpenFile path ;;
    match f with
    | None => ctx_AbortWithStatus StatusInternalServerError
    | Some f =>
        buf <- ReadFrom f ;;
        match buf with
        | None => ctx_AbortWithStatus StatusInternalServerError
        | Some buf =>
            ok <- ctx_Write buf ;;
            if ok then ret tt
            else ctx_AbortWithStatus StatusInternalServerError
        end
    end.

(** The function returned by [New]. *)
Definition handler (req : Request) : M unit :=
  if not_GET req then
    ctx_AbortWithStatus StatusMethodNotAllowed
  else
    matches <- FindStringSubmatch_uri (URI req) ;;
    if not_found matches req
    then ctx_String StatusNotFound (StatusText StatusNotFound)
    else
      path <- lift (derive_path matches (Param_any req)) ;;
      prefix <- lift (derive_prefix matches (URI req)) ;;
      once_Do (write_Prefix prefix) ;;
      set_content_type (filepath_Ext path) ;;
      dispatch path.

(** One request served by the closure [cl] on the response [r0]. *)
Definition serve_on (r0 : Response) (cl : Closure) (req : Request)
  : option Machine :=
  match handler req {| closure := cl; ctx := r0; trace := [] |} with
  | Some (_, m) => Some m
  | None => None
  end.

Definition serve (cl : Closure) (req : Request) : option Machine :=
  serve_on fresh cl req.

(** The closure once [prefix] is recorded and the guard has fired. *)
Definition record_prefix (prefix : string) (cl : Closure) : Closure :=
  match Config.Handler (config cl) with
  | Some h =>
      {| config := set_Handler (config cl) (Some (set_Prefix h prefix));
         once := true |}
  | None => cl
  end.

(** The closure after [once.Do] on a request that derived [prefix]. *)
Definition guard (prefix : string) (cl : Closure) : Closure :=
  if once cl then cl else record_prefix prefix cl.

(** [config.Handler.Prefix] as the closure holds it. *)
Definition Handler_Prefix (cl : Closure) : option string :=
  webdav.Prefix <$> Config.Handler (config cl).

(** The closure after a sequence of requests, each on its own response. *)
Fixpoint serve_all (cl : Closure) (reqs : list Request) : option Closure :=
  match reqs with
  | [] => Some cl
  | req :: reqs' =>
      match serve cl req with
      | Some m => serve_all (closure m) reqs'
      | None => None
      end
  end.

End Handler.

(** ** The content types of the specification *)

(** The table of the specification, by extension. *)
Definition spec_content_type (ext : string) : option string :=
  if String.eqb ext ".html" then Some "text/html; charset=utf-8"
  else if String.eqb ext ".css" then Some "text/css; charset=utf-8"
  else if String.eqb ext ".js" then Some "application/javascript"
  else if String.eqb ext ".png" then Some "image/png"
  else if String.eqb ext ".json" then Some "application/json; charset=utf-8"
  else None.

(** The headers of a response once the content type [ct] is chosen. *)
Definition with_content_type (ct : option string) (hdr : gmap string string)
  : gmap string string :=
  match ct with
  | Some v => <["Content-Type" := v]> hdr
  | None => hdr
  end.

(** A configuration with another expansion depth. *)
Definition with_depth (c : Config.t) (depth : Z) : Config.t :=
  {| Config.URL := Config.URL c;
     Config.DocExpansion := Config.DocExpansion c;
     Config.InstanceName := Config.InstanceName c;
     Config.Title := Config.Title c;
     Config.DefaultModelsExpandDepth := depth;
     Config.DeepLinking := Config.DeepLinking c;
     Config.PersistAuthorization := Config.PersistAuthorization c;
     Config.Oauth2DefaultClientID := Config.Oauth2DefaultClientID c;
     Config.Handler := Config.Handler c |}.

(** The page: what an execution of [index] on [data] writes in all. *)
Definition render (data : swaggerConfig.t) : string :=
  concat (map (node_output data) index).

(** The body of a served request, when the handler returned. *)
Definition body_of (o : option Machine) : option string :=
  (fun m => Body (ctx m)) <$> o.

(** A response after [ctx.AbortWithStatus(500)]. *)
Definition aborted500 (r : Response) : Response :=
  {| StatusCode := StatusInternalServerError; Header := Header r;
     Body := Body r; Aborted := true |}.

(** A response after a successful write of [p]. *)
Definition wrote (p : string) (r : Response) : Response :=
  {| StatusCode := StatusCode r; Header := Header r;
     Body := Body r +:+ p; Aborted := Aborted r |}.

(** ** Sample requests and collaborators used by the examples *)

Module Sample.

Definition css_file : webdav.File := {| webdav.ReadAll := Some "body{margin:0}" |}.

Definition files : webdav.FileSystem :=
  {| webdav.OpenFile := fun path =>
       if String.eqb path "swagger-ui.css" then Some css_file else None |}.

Definition provider : webdav.Handler :=
  {| webdav.Prefix := ""; webdav.Files := files |}.

Definition registry (name : string) : option string :=
  if String.eqb name "swagger" then Some "{}" else None.

Definition no_write_error (p : string) : bool := false.

Definition get (uri any : string) : Request :=
  {| Method := "GET"; URI := uri; Param_any := any |}.

Definition demo : Config.t :=
  {| Config.URL := "doc.json";
     Config.DocExpansion := "";
     Config.InstanceName := "";
     Config.Title := "Demo";
     Config.DefaultModelsExpandDepth := 1;
     Config.DeepLinking := true;
     Config.PersistAuthorization := false;
     Config.Oauth2DefaultClientID := "";
     Config.Handler := None |}.

Definition closure0 : Closure := New "swagger" provider [].

Definition demo_closure : Closure := New "swagger" provider [demo].

Definition index_request : Request :=
  get "http://localhost:8888/swagger/index.html" "index.html".

Definition request_a : Request :=
  get "http://a.example/swagger/index.html" "index.html".

Definition request_b : Request :=
  get "https://b.example:8443/docs/index.html" "index.html".

Definition css_map_request : Request :=
  get "http://localhost:8888/swagger/swagger-ui.css.map" "swagger-ui.css.map".

End Sample.

(** ** Notions used by the further properties *)

(** The leaves that are served from the provider's files. *)
Definition static_names : list string :=
  [ "favicon-16x16.png"; "favicon-32x32.png"; "/oauth2-redirect.html";
    "swagger-ui.css"; "swagger-ui.js"; "swagger-ui-bundle.js";
    "swagger-ui-standalone-preset.js" ].

(** The values of the content-type switch. *)
Definition content_types : list string :=
  [ "text/html; charset=utf-8"; "text/css; charset=utf-8";
    "application/javascript"; "image/png";
    "application/json; charset=utf-8" ].

(** Whether every byte of [s] is one of [cs]. *)
Fixpoint all_in (cs : list ascii) (s : string) : bool :=
  match s with
  | EmptyString => true
  | String a s' => mem a cs && all_in cs s'
  end.

(** Whether no byte of [s] is one of [cs]. *)
Fixpoint none_in (cs : list ascii) (s : string) : bool :=
  match s with
  | EmptyString => true
  | String a s' => negb (mem a cs) && none_in cs s'
  end.

(** The class of the tail of the route pattern. *)
Definition tail_class : list ascii := ["?"%char; "|"%char; "."%char].

(** The route pattern after its first group, at the input [s1] of a
    match that started at [s]. *)
Definition after_prefix (s s1 : string) : option Caps :=
  bt (Concat (Capture 2 (alternatives "index.html" (tl asset_names)))
             (Star (CharClass tail_class)))
     s1 [(1%nat, consumed s s1)]
     (fun s' c => Some ((0%nat, consumed s s') :: c)).

(** Whether [k] finds nothing at any proper suffix of [s]. *)
Fixpoint fails_after (k : string -> option Caps) (s : string) : Prop :=
  match s with
  | EmptyString => True
  | String _ s' => k s' = None /\ fails_after k s'
  end.

(** The assets the page asks the browser to load, by relative path. *)
Definition page_assets : list string :=
  [ "swagger-ui.css"; "favicon-32x32.png"; "favicon-16x16.png";
    "swagger-ui-bundle.js"; "swagger-ui-standalone-preset.js" ].

(** The configuration without its provider. *)
Definition settings (c : Config.t) : Config.t := set_Handler c None.

(** * Properties *)

(** ** Sanity of the embedding *)

Example index_source : concat (map node_source index) = swaggerIndexTpl.
Proof. vm_compute. reflexivity. Qed.

Example swaggerIndexTpl_length : String.length swaggerIndexTpl = 3871%nat.
Proof. vm_compute. reflexivity. Qed.

Example Ext_examples :
  map filepath_Ext
    ["index.html"; "/oauth2-redirect.html"; "swagger-ui.css.map"; "a.b/c";
     "doc.json"; "favicon-16x16.png"; ""]
  = [".html"; ".html"; ".map"; ""; ".json"; ".png"; ""].
Proof. vm_compute. reflexivity. Qed.

Example find_index :
  matcher_FindStringSubmatch "http://localhost:8888/swagger/index.html"
  = [ "http://localhost:8888/swagger/index.html";
      "http://localhost:8888/swagger/"; "index.html" ].
Proof. vm_compute. reflexivity. Qed.

Example find_last_name_wins :
  matcher_FindStringSubmatch "http://h/docs/index.html?next=doc.json"
  = [ "http://h/docs/index.html?next=doc.json";
      "http://h/docs/index.html?next="; "doc.json" ].
Proof. vm_compute. reflexivity. Qed.

Example find_none :
  matcher_FindStringSubmatch "http://localhost:8888/swagger/foo.txt" = [].
Proof. vm_compute. reflexivity. Qed.

Example escapers :
  (rcdataEscaper "a<b", jsStrEscaper "a/b'c",
   jsValEscaper (OfScalar (GoBool true)), jsValEscaper (OfScalar (GoInt (-3))),
   jsValEscaper (OfJS "`x`"))
  = ("a&lt;b", "a\/b\u0027c", " true ", " -3 ", "`x`").
Proof. vm_compute. reflexivity. Qed.

(** ** Byte strings: append, prefixes and containment *)

Lemma append_cons (a : ascii) (s t : string) :
  String a s +:+ t = String a (s +:+ t).
Proof. reflexivity. Qed.

Lemma append_nil_l (s : string) : "" +:+ s = s.
Proof. reflexivity. Qed.

Lemma append_nil_r (s : string) : s +:+ "" = s.
Proof.
  induction s as [| a s IH]; [reflexivity |].
  rewrite append_cons, IH. reflexivity.
Qed.

Lemma append_assoc (s1 s2 s3 : string) :
  (s1 +:+ s2) +:+ s3 = s1 +:+ (s2 +:+ s3).
Proof.
  induction s1 as [| a s1 IH]; [reflexivity |].
  rewrite !append_cons, IH. reflexivity.
Qed.

Lemma strip_prefix_app (p s : string) : strip_prefix p (p +:+ s) = Some s.
Proof.
  induction p as [| a p IH]; [reflexivity |].
  rewrite append_cons. cbn. rewrite Ascii.eqb_refl. exact IH.
Qed.

Lemma strip_prefix_Some (p s s' : string) :
  strip_prefix p s = Some s' -> s = p +:+ s'.
Proof.
  revert s. induction p as [| a p IH]; intros s; cbn.
  - intros [= ->]. reflexivity.
  - destruct s as [| b s]; [discriminate |].
    destruct (Ascii.eqb_spec a b) as [-> | _]; [| discriminate].
    intros H. rewrite (IH _ H). reflexivity.
Qed.

Lemma has_prefix_app (p s : string) : has_prefix p (p +:+ s) = true.
Proof. unfold has_prefix. rewrite strip_prefix_app. reflexivity. Qed.

Lemma contains_prefix (sub s : string) :
  has_prefix sub s = true -> contains sub s = true.
Proof. intros H. destruct s; cbn; rewrite H; reflexivity. Qed.

Lemma contains_cons (sub : string) (a : ascii) (s : string) :
  contains sub s = true -> contains sub (String a s) = true.
Proof. intros H. cbn. rewrite H. apply orb_true_r. Qed.

(** [contains] decides the presence of a substring. *)
Lemma contains_spec (sub s : string) :
  contains sub s = true <-> exists pre post, s = pre +:+ sub +:+ post.
Proof.
  split.
  - induction s as [| a s IH].
    + cbn. unfold has_prefix.
      destruct (strip_prefix sub "") as [s' |] eqn:E; [| discriminate].
      intros _. exists "", s'. apply strip_prefix_Some in E. exact E.
    + cbn. unfold has_prefix.
      destruct (strip_prefix sub (String a s)) as [s' |] eqn:E.
      * intros _. exists "", s'. apply strip_prefix_Some in E. exact E.
      * cbn. intros H. destruct (IH H) as (pre & post & ->).
        exists (String a pre), post. reflexivity.
  - intros (pre & post & ->).
    induction pre as [| a pre IH].
    + rewrite append_nil_l. apply contains_prefix, has_prefix_app.
    + rewrite append_cons. apply contains_cons, IH.
Qed.

Lemma contains_app_l (sub s t : string) :
  contains sub s = true -> contains sub (s +:+ t) = true.
Proof.
  rewrite !contains_spec. intros (pre & post & ->).
  exists pre, (post +:+ t). rewrite !append_assoc. reflexivity.
Qed.

Lemma contains_app_r (sub s t : string) :
  contains sub t = true -> contains sub (s +:+ t) = true.
Proof.
  rewrite !contains_spec. intros (pre & post & ->).
  exists (s +:+ pre), post. rewrite !append_assoc. reflexivity.
Qed.

(** ** Rejected requests *)

Section Rejections.

Variable swag_ReadDoc : string -> option string.
Variable write_err : string -> bool.

Lemma not_GET_true req : Method req <> "GET" -> not_GET req = true.
Proof.
  intros H. unfold not_GET, MethodGet.
  apply negb_true_iff, String.eqb_neq, H.
Qed.

Lemma not_GET_false req : Method req = "GET" -> not_GET req = false.
Proof.
  intros H. unfold not_GET, MethodGet. rewrite H. reflexivity.
Qed.

(** C8: a request whose method is not GET is answered 405; the closure
    (and with it the prefix) and the body stay as they were, and the
    handler makes no call at all: no matching, no write. *)
Theorem C8_method_not_allowed (cl : Closure) (r0 : Response) (req : Request) :
  Method req <> "GET" ->
  serve_on swag_ReadDoc write_err r0 cl req
  = Some {| closure := cl;
            ctx := {| StatusCode := 405; Header := Header r0;
                      Body := Body r0; Aborted := true |};
            trace := [] |}.
Proof.
  intros H. unfold serve_on, handler.
  rewrite (not_GET_true _ H). reflexivity.
Qed.

(** C7, as the code has it: the pattern is tried on the whole URI of
    the request (scheme, host, path and query), not on its path.  A GET
    request with a wildcard segment whose whole URI the pattern does
    not match is answered 404; the handler has matched and written the
    status text, and has opened no file, looked up no document and
    rendered nothing; the closure is untouched. *)
Theorem C7_unmatched_wildcard_is_404 (cl : Closure) (r0 : Response) (req : Request) :
  Method req = "GET" ->
  Param_any req <> "" ->
  matcher_FindStringSubmatch (URI req) = [] ->
  exists m,
    serve_on swag_ReadDoc write_err r0 cl req = Some m /\
    StatusCode (ctx m) = 404 /\
    trace m = [EvFindStringSubmatch (URI req); EvString 404 "Not Found"] /\
    existsb is_backend_call (trace m) = false /\
    closure m = cl.
Proof.
  intros HG Hany Hm. unfold serve_on, handler.
  rewrite (not_GET_false _ HG).
  unfold FindStringSubmatch_uri, bind, emit, ret; cbn.
  unfold not_found. rewrite Hm; cbn.
  apply String.eqb_neq in Hany. rewrite Hany; cbn.
  eexists; split; [reflexivity |]. cbn. auto.
Qed.

End Rejections.

Lemma C8_witness :
  serve_on Sample.registry Sample.no_write_error fresh Sample.closure0
    {| Method := "POST"; URI := "http://localhost:8888/swagger/index.html";
       Param_any := "index.html" |}
  = Some {| closure := Sample.closure0;
            ctx := {| StatusCode := 405; Header := ∅; Body := "";
                      Aborted := true |};
            trace := [] |}.
Proof.
  apply (C8_method_not_allowed Sample.registry Sample.no_write_error
           Sample.closure0 fresh). cbn. discriminate.
Defined.

Lemma C7_witness :
  exists m,
    serve_on Sample.registry Sample.no_write_error fresh Sample.closure0
      (Sample.get "http://localhost:8888/swagger/foo.txt" "foo.txt") = Some m /\
    StatusCode (ctx m) = 404 /\
    trace m = [EvFindStringSubmatch "http://localhost:8888/swagger/foo.txt";
               EvString 404 "Not Found"] /\
    existsb is_backend_call (trace m) = false /\
    closure m = Sample.closure0.
Proof.
  apply (C7_unmatched_wildcard_is_404 Sample.registry Sample.no_write_error
           Sample.closure0 fresh
           (Sample.get "http://localhost:8888/swagger/foo.txt" "foo.txt")).
  - reflexivity.
  - cbn. discriminate.
  - vm_compute. reflexivity.
Defined.

(** C7 read on the path: the request below has the path
    [/swagger/foo.txt] and the wildcard segment [foo.txt]; the pattern
    matches neither, since no asset is named there.  Its query names
    the page, so the pattern matches the URI, and the request is
    answered 200 with the rendered page instead of 404. *)
Lemma C7_counterexample :
  URI (Sample.get "http://localhost:8888/swagger/foo.txt?ref=index.html"
                  "foo.txt")
  = "http://localhost:8888" +:+ "/swagger/foo.txt" +:+ "?ref=index.html" /\
  Method (Sample.get "http://localhost:8888/swagger/foo.txt?ref=index.html"
                     "foo.txt") = "GET" /\
  Param_any (Sample.get "http://localhost:8888/swagger/foo.txt?ref=index.html"
                        "foo.txt") = "foo.txt" /\
  matcher_FindStringSubmatch "/swagger/foo.txt" = [] /\
  matcher_FindStringSubmatch "foo.txt" = [] /\
  leaf (Sample.get "http://localhost:8888/swagger/foo.txt?ref=index.html"
                   "foo.txt") = Some "index.html" /\
  (fun m => (StatusCode (ctx m),
             Header (ctx m) !! "Content-Type",
             filter is_backend_call (trace m),
             Body (ctx m)))
    <$> serve Sample.registry Sample.no_write_error Sample.closure0
          (Sample.get "http://localhost:8888/swagger/foo.txt?ref=index.html"
                      "foo.txt")
  = Some (200, Some "text/html; charset=utf-8", [EvExecute],
          render (toSwaggerConfig (config Sample.closure0))).
Proof.
  repeat split; vm_compute; reflexivity.
Qed.

(** ** Served requests: what every path has in common *)

Section Served.

Variable swag_ReadDoc : string -> option string.
Variable write_err : string -> bool.

Lemma leaf_GET req p : leaf req = Some p -> not_GET req = false.
Proof.
  unfold leaf. destruct (not_GET req); [discriminate | reflexivity].
Qed.

Lemma leaf_found req p :
  leaf req = Some p ->
  not_found (matcher_FindStringSubmatch (URI req)) req = false /\
  derive_path (matcher_FindStringSubmatch (URI req)) (Param_any req) = Some p.
Proof.
  unfold leaf. destruct (not_GET req); [discriminate |].
  destruct (not_found _ req); [discriminate | auto].
Qed.

(** A served request always has a prefix: [matches[1]] is in range when
    the pattern matched. *)
Lemma prefix_of_total req : exists pre, prefix_of req = Some pre.
Proof.
  unfold prefix_of, derive_prefix.
  destruct (matcher_FindStringSubmatch (URI req)) as [| a [| b [| c [| d l]]]];
    cbn; eauto.
Qed.

Lemma set_content_type_run ext m :
  set_content_type ext m
  = Some (tt, {| closure := closure m;
                 ctx := {| StatusCode := StatusCode (ctx m);
                           Header := with_content_type (spec_content_type ext)
                                       (Header (ctx m));
                           Body := Body (ctx m);
                           Aborted := Aborted (ctx m) |};
                 trace := trace m |}).
Proof.
  destruct m as [cl [st hd bd ab] tr].
  unfold set_content_type, spec_content_type.
  repeat (destruct (String.eqb ext _); [reflexivity |]).
  reflexivity.
Qed.

Lemma once_Do_write_Prefix_run pre cl r tr h :
  Config.Handler (config cl) = Some h ->
  once_Do (write_Prefix pre) {| closure := cl; ctx := r; trace := tr |}
  = Some (tt, {| closure := guard pre cl; ctx := r;
                 trace := tr ++ (if once cl then [] else [EvSetPrefix pre]) |}).
Proof.
  intros Hh. unfold once_Do, guard, record_prefix; cbn.
  destruct (once cl) eqn:Ho.
  - cbn. rewrite app_nil_r. reflexivity.
  - unfold bind, write_Prefix, bind, config_Handler; cbn.
    rewrite Hh. cbn. reflexivity.
Qed.

Lemma guard_Handler pre cl h :
  Config.Handler (config cl) = Some h ->
  exists h', Config.Handler (config (guard pre cl)) = Some h' /\
             webdav.Files h' = webdav.Files h.
Proof.
  intros Hh. unfold guard, record_prefix. rewrite Hh.
  destruct (once cl); cbn; eauto.
Qed.

Lemma guard_config_fields pre cl :
  toSwaggerConfig (config (guard pre cl)) = toSwaggerConfig (config cl) /\
  Config.InstanceName (config (guard pre cl)) = Config.InstanceName (config cl).
Proof.
  unfold guard, record_prefix.
  destruct (once cl); [auto |].
  destruct (Config.Handler (config cl)); auto.
Qed.

(** The steps of [handler] up to the content-type switch. *)
Lemma handler_served req p cl r0 h :
  leaf req = Some p ->
  Config.Handler (config cl) = Some h ->
  exists pre,
    prefix_of req = Some pre /\
    handler swag_ReadDoc write_err req {| closure := cl; ctx := r0; trace := [] |}
    = dispatch swag_ReadDoc write_err p
        {| closure := guard pre cl;
           ctx := {| StatusCode := StatusCode r0;
                     Header := with_content_type
                                 (spec_content_type (filepath_Ext p)) (Header r0);
                     Body := Body r0;
                     Aborted := Aborted r0 |};
           trace := EvFindStringSubmatch (URI req)
                    :: (if once cl then [] else [EvSetPrefix pre]) |}.
Proof.
  intros Hl Hh.
  destruct (prefix_of_total req) as [pre Hpre]. exists pre. split; [exact Hpre |].
  pose proof (leaf_GET _ _ Hl) as HG.
  destruct (leaf_found _ _ Hl) as [Hnf Hp].
  unfold handler. rewrite HG.
  unfold FindStringSubmatch_uri, bind at 1 2, emit, ret; cbn.
  rewrite Hnf.
  unfold bind at 1. unfold lift at 1. rewrite Hp; cbn.
  unfold bind at 1. unfold lift at 1.
  unfold prefix_of in Hpre. rewrite Hpre; cbn.
  unfold bind at 1.
  rewrite (once_Do_write_Prefix_run _ _ _ _ _ Hh).
  unfold bind at 1. rewrite set_content_type_run. reflexivity.
Qed.

Lemma ctx_Write_run p m :
  ctx_Write write_err p m
  = Some (negb (write_err p),
          {| closure := closure m;
             ctx := {| StatusCode := StatusCode (ctx m);
                       Header := Header (ctx m);
                       Body := if write_err p then Body (ctx m)
                               else Body (ctx m) +:+ p;
                       Aborted := Aborted (ctx m) |};
             trace := trace m ++ [EvWrite p] |}).
Proof.
  destruct m as [cl [st hd bd ab] tr].
  unfold ctx_Write, bind, emit, with_ctx, ret; cbn.
  destruct (write_err p); reflexivity.
Qed.

(** The writes of an execution keep the closure, the status and the
    headers, and never panic. *)
Lemma write_all_frame ps : forall m,
  exists ok m',
    write_all write_err ps m = Some (ok, m') /\
    closure m' = closure m /\
    Header (ctx m') = Header (ctx m) /\
    StatusCode (ctx m') = StatusCode (ctx m).
Proof.
  induction ps as [| p ps IH]; intros m; cbn.
  - exists true, m. auto.
  - unfold bind. rewrite ctx_Write_run.
    destruct (write_err p); cbn.
    + eexists _, _. split; [reflexivity |]. cbn. auto.
    + destruct (IH {| closure := closure m;
                      ctx := {| StatusCode := StatusCode (ctx m);
                                Header := Header (ctx m);
                                Body := Body (ctx m) +:+ p;
                                Aborted := Aborted (ctx m) |};
                      trace := trace m ++ [EvWrite p] |})
        as (ok & m' & E & Hc & Hh & Hs).
      exists ok, m'. rewrite E. cbn in *. auto.
Qed.

(** The body they leave depends on the body they start from only. *)
Lemma write_all_body ps : forall m1 m2 ok1 ok2 m1' m2',
  Body (ctx m1) = Body (ctx m2) ->
  write_all write_err ps m1 = Some (ok1, m1') ->
  write_all write_err ps m2 = Some (ok2, m2') ->
  Body (ctx m1') = Body (ctx m2').
Proof.
  induction ps as [| p ps IH]; intros m1 m2 ok1 ok2 m1' m2' HB; cbn.
  - intros [= _ <-] [= _ <-]. exact HB.
  - unfold bind. rewrite !ctx_Write_run.
    destruct (write_err p); cbn.
    + intros [= _ <-] [= _ <-]. cbn. exact HB.
    + apply IH. cbn. rewrite HB. reflexivity.
Qed.

(** When no write fails the body grows by all the pieces, in order. *)
Lemma write_all_ok ps : forall m,
  forallb (fun p => negb (write_err p)) ps = true ->
  write_all write_err ps m
  = Some (true,
          {| closure := closure m;
             ctx := {| StatusCode := StatusCode (ctx m);
                       Header := Header (ctx m);
                       Body := Body (ctx m) +:+ concat ps;
                       Aborted := Aborted (ctx m) |};
             trace := trace m ++ map EvWrite ps |}).
Proof.
  induction ps as [| p ps IH]; intros m H; cbn.
  - destruct m as [cl [st hd bd ab] tr]; cbn.
    rewrite app_nil_r, append_nil_r. reflexivity.
  - cbn in H. apply andb_true_iff in H as [Hp Hps].
    apply negb_true_iff in Hp.
    unfold bind. rewrite ctx_Write_run, Hp. cbn.
    rewrite (IH _ Hps). cbn. rewrite <- app_assoc, append_assoc. reflexivity.
Qed.

(** The switch on the leaf returns on a closure that holds a provider
    (one with a file system), and it leaves the closure and the headers
    alone. *)
Lemma dispatch_frame p m h :
  Config.Handler (config (closure m)) = Some h ->
  exists m',
    dispatch swag_ReadDoc write_err p m = Some (tt, m') /\
    closure m' = closure m /\
    Header (ctx m') = Header (ctx m).
Proof.
  intros Hh. unfold dispatch.
  destruct (String.eqb p "index.html").
  { unfold bind at 1, get_config. unfold bind at 1, Execute.
    unfold bind at 1, emit.
    destruct (write_all_frame
                (map (node_output (toSwaggerConfig (config (closure m)))) index)
                {| closure := closure m; ctx := ctx m;
                   trace := trace m ++ [EvExecute] |})
      as (ok & m' & E & Hc & Hd & _).
    rewrite E. exists m'. cbn in *. auto. }
  destruct (String.eqb p "doc.json").
  { unfold bind at 1, get_config. unfold bind at 1, ReadDoc, bind at 1, emit, ret.
    destruct (swag_ReadDoc _) as [doc |].
    - unfold bind. rewrite ctx_Write_run.
      destruct (write_err doc); cbn; eexists; (split; [reflexivity |]); cbn; auto.
    - cbn. eexists; (split; [reflexivity |]); cbn; auto. }
  unfold bind at 1, OpenFile, bind at 1, config_Handler. rewrite Hh.
  unfold bind at 1, emit, ret.
  destruct (webdav.OpenFile _ p) as [f |].
  - unfold bind at 1, ReadFrom, bind at 1, emit, ret.
    destruct (webdav.ReadAll f) as [buf |].
    + unfold bind. rewrite ctx_Write_run.
      destruct (write_err buf); cbn; eexists; (split; [reflexivity |]); cbn; auto.
    + cbn. eexists; (split; [reflexivity |]); cbn; auto.
  - cbn. eexists; (split; [reflexivity |]); cbn; auto.
Qed.

(** Every served request: the result exists, the closure is the guarded
    one, and the content type is the one of the table. *)
Lemma serve_served req p cl r0 h :
  leaf req = Some p ->
  Config.Handler (config cl) = Some h ->
  exists pre m,
    prefix_of req = Some pre /\
    serve_on swag_ReadDoc write_err r0 cl req = Some m /\
    closure m = guard pre cl /\
    Header (ctx m)
    = with_content_type (spec_content_type (filepath_Ext p)) (Header r0).
Proof.
  intros Hl Hh.
  destruct (handler_served req p cl r0 h Hl Hh) as (pre & Hpre & E).
  destruct (guard_Handler pre cl h Hh) as (h' & Hh' & _).
  unfold serve_on. rewrite E.
  match goal with |- context [dispatch _ _ p ?m0] =>
    destruct (dispatch_frame p m0 h' Hh') as (m' & E' & Hc & Hd) end.
  rewrite E'. exists pre, m'. cbn in *. auto.
Qed.

End Served.

(** ** The content type *)

(** C6: a served GET request gets its content type from the extension
    of the leaf alone: the five extensions of the table set the header,
    any other extension leaves the headers as they were. *)
Theorem C6_content_type_by_extension
    (swag_ReadDoc : string -> option string) (write_err : string -> bool)
    (cl : Closure) (h : webdav.Handler) (r0 : Response)
    (req : Request) (p : string) :
  leaf req = Some p ->
  Config.Handler (config cl) = Some h ->
  exists m,
    serve_on swag_ReadDoc write_err r0 cl req = Some m /\
    Header (ctx m)
    = with_content_type (spec_content_type (filepath_Ext p)) (Header r0) /\
    (filepath_Ext p = ".html" ->
     Header (ctx m) !! "Content-Type" = Some "text/html; charset=utf-8") /\
    (filepath_Ext p = ".css" ->
     Header (ctx m) !! "Content-Type" = Some "text/css; charset=utf-8") /\
    (filepath_Ext p = ".js" ->
     Header (ctx m) !! "Content-Type" = Some "application/javascript") /\
    (filepath_Ext p = ".png" ->
     Header (ctx m) !! "Content-Type" = Some "image/png") /\
    (filepath_Ext p = ".json" ->
     Header (ctx m) !! "Content-Type" = Some "application/json; charset=utf-8") /\
    (~ In (filepath_Ext p) [".html"; ".css"; ".js"; ".png"; ".json"] ->
     Header (ctx m) = Header r0).
Proof.
  intros Hl Hh.
  destruct (serve_served swag_ReadDoc write_err req p cl r0 h Hl Hh)
    as (pre & m & _ & E & _ & Hd).
  exists m. split; [exact E |]. split; [exact Hd |].
  rewrite Hd.
  repeat split; try (intros ->; cbn; apply lookup_insert_eq).
  intros Hn. unfold spec_content_type.
  repeat match goal with
  | |- context [String.eqb ?a ?b] =>
      destruct (String.eqb_spec a b) as [E' | _];
        [exfalso; apply Hn; rewrite E'; cbn; tauto |]
  end.
  reflexivity.
Qed.

Lemma C6_witness :
  exists m,
    serve_on Sample.registry Sample.no_write_error fresh Sample.closure0
      (Sample.get "http://localhost:8888/swagger/favicon-16x16.png"
                  "favicon-16x16.png") = Some m /\
    Header (ctx m) !! "Content-Type" = Some "image/png".
Proof.
  destruct (C6_content_type_by_extension Sample.registry Sample.no_write_error
              Sample.closure0 Sample.provider fresh
              (Sample.get "http://localhost:8888/swagger/favicon-16x16.png"
                          "favicon-16x16.png")
              "favicon-16x16.png")
    as (m & E & _ & _ & _ & _ & Hpng & _).
  - vm_compute. reflexivity.
  - reflexivity.
  - exists m. split; [exact E |]. apply Hpng. vm_compute. reflexivity.
Defined.

(** ** The one-time prefix write *)

Section Prefix.

Variable swag_Name : string.
Variable swag_ReadDoc : string -> option string.
Variable swaggerFiles_Handler : webdav.Handler.
Variable write_err : string -> bool.

(** The pattern has two groups: a match has three strings, no match none. *)
Lemma FindStringSubmatch_length s :
  matcher_FindStringSubmatch s = [] \/
  length (matcher_FindStringSubmatch s) = 3%nat.
Proof.
  unfold matcher_FindStringSubmatch, FindStringSubmatch.
  destruct (find matcher s); [right; reflexivity | left; reflexivity].
Qed.

(** A request without a leaf is answered 405 or 404. *)
Lemma leaf_None req :
  leaf req = None ->
  not_GET req = true \/
  (not_GET req = false /\
   not_found (matcher_FindStringSubmatch (URI req)) req = true).
Proof.
  unfold leaf. destruct (not_GET req); [auto |]. right. split; [reflexivity |].
  unfold not_found, derive_path in *.
  destruct (FindStringSubmatch_length (URI req)) as [E | E].
  - rewrite E in *. cbn in *.
    destruct (String.eqb (Param_any req) ""); [discriminate | reflexivity].
  - destruct (matcher_FindStringSubmatch (URI req)) as [| a [| b [| c l]]];
      try discriminate.
    cbn in *. destruct l; [| discriminate]. cbn in *.
    destruct (String.eqb (Param_any req) ""); discriminate.
Qed.

(** A rejected request leaves the closure as it was. *)
Lemma serve_rejected req cl r0 :
  leaf req = None ->
  exists m, serve_on swag_ReadDoc write_err r0 cl req = Some m /\ closure m = cl.
Proof.
  intros H. unfold serve_on, handler.
  destruct (leaf_None req H) as [HG | [HG Hnf]]; rewrite HG.
  - eexists. split; reflexivity.
  - unfold FindStringSubmatch_uri, bind at 1 2, emit, ret; cbn.
    rewrite Hnf. eexists. split; reflexivity.
Qed.

Lemma serve_all_rejected reqs cl :
  Forall (fun r => leaf r = None) reqs ->
  serve_all swag_ReadDoc write_err cl reqs = Some cl.
Proof.
  induction 1 as [| req reqs Hr _ IH]; cbn; [reflexivity |].
  destruct (serve_rejected req cl fresh Hr) as (m & E & Hc).
  unfold serve. rewrite E, Hc. exact IH.
Qed.

(** Once the guard has fired no request changes the closure. *)
Lemma serve_all_after_once reqs cl h :
  once cl = true ->
  Config.Handler (config cl) = Some h ->
  serve_all swag_ReadDoc write_err cl reqs = Some cl.
Proof.
  intros Ho Hh. induction reqs as [| req reqs IH]; cbn; [reflexivity |].
  unfold serve. destruct (leaf req) as [p |] eqn:Hl.
  - destruct (serve_served swag_ReadDoc write_err req p cl fresh h Hl Hh)
      as (pre & m & _ & E & Hc & _).
    rewrite E, Hc. unfold guard. rewrite Ho. exact IH.
  - destruct (serve_rejected req cl fresh Hl) as (m & E & Hc).
    rewrite E, Hc. exact IH.
Qed.

Lemma serve_all_app reqs1 reqs2 cl cl1 :
  serve_all swag_ReadDoc write_err cl reqs1 = Some cl1 ->
  serve_all swag_ReadDoc write_err cl (reqs1 ++ reqs2)
  = serve_all swag_ReadDoc write_err cl1 reqs2.
Proof.
  revert cl. induction reqs1 as [| req reqs1 IH]; intros cl; cbn.
  - intros [= ->]. reflexivity.
  - destruct (serve swag_ReadDoc write_err cl req); [apply IH | discriminate].
Qed.

(** C2, as the code has it: the prefix is recorded by the first request
    that passes the method and route checks, whatever was rejected
    before it, and no later request changes the closure, so
    [Handler.Prefix] keeps that value even when a later request derives
    another one. *)
Theorem C2_prefix_recorded_once
    (cfg : list Config.t) (rejected : list Request) (req : Request)
    (later : list Request) (p : string) :
  Forall (fun r => leaf r = None) rejected ->
  leaf req = Some p ->
  exists pre cl,
    prefix_of req = Some pre /\
    serve_all swag_ReadDoc write_err (New swag_Name swaggerFiles_Handler cfg)
      (rejected ++ [req]) = Some cl /\
    Handler_Prefix cl = Some pre /\
    serve_all swag_ReadDoc write_err (New swag_Name swaggerFiles_Handler cfg)
      (rejected ++ [req] ++ later) = Some cl.
Proof.
  intros Hrej Hl.
  set (cl0 := New swag_Name swaggerFiles_Handler cfg).
  assert (exists h, Config.Handler (config cl0) = Some h) as [h Hh].
  { unfold cl0, New, New_config; cbn.
    destruct (Config.Handler _); eauto. }
  destruct (serve_served swag_ReadDoc write_err req p cl0 fresh h Hl Hh)
    as (pre & m & Hpre & E & Hc & _).
  assert (Hg : guard pre cl0 = record_prefix pre cl0) by reflexivity.
  assert (E1 : serve_all swag_ReadDoc write_err cl0 (rejected ++ [req])
               = Some (closure m)).
  { rewrite (serve_all_app _ _ _ _ (serve_all_rejected _ cl0 Hrej)).
    cbn. unfold serve. rewrite E. reflexivity. }
  exists pre, (closure m). split; [exact Hpre |]. split; [exact E1 |].
  rewrite Hc, Hg. unfold record_prefix. rewrite Hh.
  split; [reflexivity |].
  rewrite app_assoc.
  rewrite (serve_all_app _ later _ _ E1).
  rewrite Hc, Hg. unfold record_prefix. rewrite Hh.
  eapply serve_all_after_once; reflexivity.
Qed.

End Prefix.

Lemma C2_witness :
  exists pre cl,
    prefix_of (Sample.get "http://localhost:8888/swagger/index.html" "index.html")
    = Some pre /\
    serve_all Sample.registry Sample.no_write_error
      (New "swagger" Sample.provider [])
      ([ {| Method := "POST"; URI := "http://localhost:8888/swagger/index.html";
            Param_any := "index.html" |} ]
       ++ [Sample.get "http://localhost:8888/swagger/index.html" "index.html"])
    = Some cl /\
    Handler_Prefix cl = Some pre /\
    serve_all Sample.registry Sample.no_write_error
      (New "swagger" Sample.provider [])
      ([ {| Method := "POST"; URI := "http://localhost:8888/swagger/index.html";
            Param_any := "index.html" |} ]
       ++ [Sample.get "http://localhost:8888/swagger/index.html" "index.html"]
       ++ [Sample.get "http://other.example/docs/doc.json" "doc.json"])
    = Some cl.
Proof.
  apply (C2_prefix_recorded_once "swagger" Sample.registry Sample.provider
           Sample.no_write_error [] _ _ _ "index.html").
  - constructor; [vm_compute; reflexivity | constructor].
  - vm_compute. reflexivity.
Defined.

(** C2 as stated fails: here the first request is a POST, answered 405
    before the guard, and the second request, a GET, is the one that
    changes [Handler.Prefix]. *)
Lemma C2_counterexample :
  serve_all Sample.registry Sample.no_write_error Sample.closure0
    [ {| Method := "POST"; URI := "http://localhost:8888/swagger/index.html";
         Param_any := "index.html" |} ] = Some Sample.closure0 /\
  Handler_Prefix Sample.closure0 = Some "" /\
  (Handler_Prefix <$>
     serve_all Sample.registry Sample.no_write_error Sample.closure0
       [ Sample.get "http://localhost:8888/swagger/index.html" "index.html" ])
  = Some (Some "http://localhost:8888/swagger/").
Proof.
  split; [| split]; vm_compute; reflexivity.
Qed.

(** ** The three ways a leaf is served *)

Section Dispatch.

Variable swag_ReadDoc : string -> option string.
Variable write_err : string -> bool.

(** The default case of the switch: a file of the provider. *)
Lemma dispatch_file p m h :
  String.eqb p "index.html" = false ->
  String.eqb p "doc.json" = false ->
  Config.Handler (config (closure m)) = Some h ->
  dispatch swag_ReadDoc write_err p m
  = Some (tt,
      match webdav.OpenFile (webdav.Files h) p with
      | None =>
          {| closure := closure m; ctx := aborted500 (ctx m);
             trace := trace m ++ [EvOpenFile p] |}
      | Some f =>
          match webdav.ReadAll f with
          | None =>
              {| closure := closure m; ctx := aborted500 (ctx m);
                 trace := trace m ++ [EvOpenFile p; EvReadFrom] |}
          | Some buf =>
              {| closure := closure m;
                 ctx := if write_err buf then aborted500 (ctx m)
                        else wrote buf (ctx m);
                 trace := trace m ++ [EvOpenFile p; EvReadFrom; EvWrite buf] |}
          end
      end).
Proof.
  intros H1 H2 Hh. unfold dispatch. rewrite H1, H2.
  unfold bind at 1, OpenFile, bind at 1, config_Handler. rewrite Hh.
  unfold bind at 1, emit, ret.
  destruct (webdav.OpenFile _ p) as [f |]; [| reflexivity].
  unfold bind at 1, ReadFrom, bind at 1, emit, ret.
  destruct (webdav.ReadAll f) as [buf |]; cbn; [| rewrite <- app_assoc; reflexivity].
  unfold bind. rewrite ctx_Write_run. cbn.
  rewrite <- !app_assoc. cbn.
  destruct (write_err buf); reflexivity.
Qed.

(** The case of the registered document. *)
Lemma dispatch_doc m :
  dispatch swag_ReadDoc write_err "doc.json" m
  = Some (tt,
      match swag_ReadDoc (Config.InstanceName (config (closure m))) with
      | None =>
          {| closure := closure m; ctx := aborted500 (ctx m);
             trace := trace m
                      ++ [EvReadDoc (Config.InstanceName (config (closure m)))] |}
      | Some doc =>
          {| closure := closure m;
             ctx := if write_err doc then aborted500 (ctx m)
                    else wrote doc (ctx m);
             trace := trace m
                      ++ [EvReadDoc (Config.InstanceName (config (closure m)));
                          EvWrite doc] |}
      end).
Proof.
  unfold dispatch.
  change (String.eqb "doc.json" "index.html") with false.
  change (String.eqb "doc.json" "doc.json") with true. cbv iota.
  unfold bind at 1, get_config. unfold bind at 1, ReadDoc, bind at 1, emit, ret.
  destruct (swag_ReadDoc _) as [doc |]; [| reflexivity].
  unfold bind. rewrite ctx_Write_run. cbn.
  rewrite <- !app_assoc. cbn.
  destruct (write_err doc); reflexivity.
Qed.

(** C3: a GET request served with the leaf [swagger-ui.css].  When the
    provider cannot open the file the status is 500.  When the file
    opens, is read and is written without error, the content type is
    that of a stylesheet and the body is the bytes of the file. *)
Theorem C3_stylesheet_round_trip
    (cl : Closure) (h : webdav.Handler) (req : Request) :
  leaf req = Some "swagger-ui.css" ->
  Config.Handler (config cl) = Some h ->
  exists m,
    serve swag_ReadDoc write_err cl req = Some m /\
    (webdav.OpenFile (webdav.Files h) "swagger-ui.css" = None ->
     StatusCode (ctx m) = 500) /\
    (forall f bytes,
       webdav.OpenFile (webdav.Files h) "swagger-ui.css" = Some f ->
       webdav.ReadAll f = Some bytes ->
       write_err bytes = false ->
       StatusCode (ctx m) = 200 /\
       Header (ctx m) !! "Content-Type" = Some "text/css; charset=utf-8" /\
       Body (ctx m) = bytes).
Proof.
  intros Hl Hh.
  destruct (handler_served swag_ReadDoc write_err req _ cl fresh h Hl Hh)
    as (pre & _ & E).
  destruct (guard_Handler pre cl h Hh) as (h' & Hh' & Hf).
  unfold serve, serve_on. rewrite E.
  erewrite (dispatch_file "swagger-ui.css");
    [| reflexivity | reflexivity | cbn [closure]; exact Hh'].
  rewrite Hf.
  eexists. split; [reflexivity |]. split.
  - intros ->. reflexivity.
  - intros f bytes -> -> ->. cbn. repeat split.
Qed.

(** C4: a GET request served with the leaf [doc.json].  When the
    registry has no document under the configured instance name the
    status is 500, the body is empty and nothing was written.  When it
    has one, the only write is that of the document, and the body is
    the document when the write does not fail. *)
Theorem C4_registered_document
    (cl : Closure) (h : webdav.Handler) (req : Request) :
  leaf req = Some "doc.json" ->
  Config.Handler (config cl) = Some h ->
  exists m,
    serve swag_ReadDoc write_err cl req = Some m /\
    (swag_ReadDoc (Config.InstanceName (config cl)) = None ->
     StatusCode (ctx m) = 500 /\ Body (ctx m) = "" /\
     filter is_write (trace m) = []) /\
    (forall doc,
       swag_ReadDoc (Config.InstanceName (config cl)) = Some doc ->
       filter is_write (trace m) = [EvWrite doc] /\
       (write_err doc = false ->
        StatusCode (ctx m) = 200 /\ Body (ctx m) = doc)).
Proof.
  intros Hl Hh.
  destruct (handler_served swag_ReadDoc write_err req _ cl fresh h Hl Hh)
    as (pre & _ & E).
  destruct (guard_config_fields pre cl) as [_ Hn].
  unfold serve, serve_on. rewrite E, dispatch_doc.
  cbn [closure]. rewrite Hn.
  eexists. split; [reflexivity |]. split.
  - intros ->. cbn. destruct (once cl); auto.
  - intros doc ->. cbn. split.
    + destruct (once cl); reflexivity.
    + intros ->. auto.
Qed.

End Dispatch.

Lemma C3_witness :
  exists m,
    serve Sample.registry Sample.no_write_error Sample.closure0
      (Sample.get "http://localhost:8888/swagger/swagger-ui.css" "swagger-ui.css")
    = Some m /\
    StatusCode (ctx m) = 200 /\
    Header (ctx m) !! "Content-Type" = Some "text/css; charset=utf-8" /\
    Body (ctx m) = "body{margin:0}".
Proof.
  destruct (C3_stylesheet_round_trip Sample.registry Sample.no_write_error
              Sample.closure0 Sample.provider
              (Sample.get "http://localhost:8888/swagger/swagger-ui.css"
                          "swagger-ui.css"))
    as (m & E & _ & H).
  - vm_compute. reflexivity.
  - reflexivity.
  - exists m. split; [exact E |].
    apply (H Sample.css_file "body{margin:0}"); reflexivity.
Defined.

Lemma C4_witness :
  exists m,
    serve Sample.registry Sample.no_write_error Sample.closure0
      (Sample.get "http://localhost:8888/swagger/doc.json" "doc.json") = Some m /\
    filter is_write (trace m) = [EvWrite "{}"] /\
    StatusCode (ctx m) = 200 /\ Body (ctx m) = "{}".
Proof.
  destruct (C4_registered_document Sample.registry Sample.no_write_error
              Sample.closure0 Sample.provider
              (Sample.get "http://localhost:8888/swagger/doc.json" "doc.json"))
    as (m & E & _ & H).
  - vm_compute. reflexivity.
  - reflexivity.
  - exists m. split; [exact E |].
    destruct (H "{}" eq_refl) as [Hw Hb]. split; [exact Hw |].
    apply Hb. reflexivity.
Defined.

(** ** The shell page *)

Section Index.

Variable swag_ReadDoc : string -> option string.
Variable write_err : string -> bool.

Lemma dispatch_index m :
  exists ok m',
    write_all write_err
      (map (node_output (toSwaggerConfig (config (closure m)))) index)
      {| closure := closure m; ctx := ctx m; trace := trace m ++ [EvExecute] |}
    = Some (ok, m') /\
    dispatch swag_ReadDoc write_err "index.html" m = Some (tt, m').
Proof.
  destruct (write_all_frame write_err
              (map (node_output (toSwaggerConfig (config (closure m)))) index)
              {| closure := closure m; ctx := ctx m;
                 trace := trace m ++ [EvExecute] |})
    as (ok & m' & E & _).
  exists ok, m'. split; [exact E |].
  unfold dispatch.
  change (String.eqb "index.html" "index.html") with true. cbv iota.
  unfold bind at 1, get_config. unfold bind at 1, Execute.
  unfold bind at 1, emit. rewrite E. reflexivity.
Qed.

(** With no write error the body grows by the whole page. *)
Lemma dispatch_index_ok m :
  (forall p, write_err p = false) ->
  exists m',
    dispatch swag_ReadDoc write_err "index.html" m = Some (tt, m') /\
    Body (ctx m')
    = Body (ctx m) +:+ render (toSwaggerConfig (config (closure m))).
Proof.
  intros Hw. destruct (dispatch_index m) as (ok & m' & E & D).
  exists m'. split; [exact D |].
  rewrite write_all_ok in E.
  - injection E as _ <-. reflexivity.
  - apply forallb_forall. intros p _. rewrite Hw. reflexivity.
Qed.

(** A substring of one piece, or of two adjacent pieces, is a substring
    of the whole. *)
Lemma contains_concat_1 sub (l : list string) : forall k x,
  l !! k = Some x ->
  contains sub x = true ->
  contains sub (concat l) = true.
Proof.
  induction l as [| a l IH]; intros [| k] x; cbn; try discriminate.
  - intros [= ->] H. apply contains_app_l, H.
  - intros Hk H. apply contains_app_r. exact (IH k x Hk H).
Qed.

Lemma contains_concat_2 sub (l : list string) : forall k x y,
  l !! k = Some x ->
  l !! S k = Some y ->
  contains sub (x +:+ y) = true ->
  contains sub (concat l) = true.
Proof.
  induction l as [| a l IH]; intros [| k] x y; cbn; try discriminate.
  - intros [= ->]. destruct l as [| b l]; cbn; [discriminate |].
    intros [= ->] H. rewrite <- append_assoc. apply contains_app_l, H.
  - intros Hk HSk H. apply contains_app_r. exact (IH k x y Hk HSk H).
Qed.

(** C5, as the code has it: the page rendered for the title [Demo], the
    document URL [doc.json], deep linking on and depth 1 contains the
    title and the URL as they are, and the two JavaScript values with
    the blank the escaper puts on each side of them. *)
Theorem C5_index_embeds_configuration
    (cl : Closure) (h : webdav.Handler) (req : Request) :
  (forall p, write_err p = false) ->
  leaf req = Some "index.html" ->
  Config.Handler (config cl) = Some h ->
  Config.Title (config cl) = "Demo" ->
  Config.URL (config cl) = "doc.json" ->
  Config.DeepLinking (config cl) = true ->
  Config.DefaultModelsExpandDepth (config cl) = 1 ->
  exists m,
    serve swag_ReadDoc write_err cl req = Some m /\
    Body (ctx m) = render (toSwaggerConfig (config cl)) /\
    contains "Demo" (Body (ctx m)) = true /\
    contains "doc.json" (Body (ctx m)) = true /\
    contains "deepLinking:  true " (Body (ctx m)) = true /\
    contains "defaultModelsExpandDepth:  1 " (Body (ctx m)) = true.
Proof.
  intros Hw Hl Hh Ht Hu Hd He.
  destruct (handler_served swag_ReadDoc write_err req _ cl fresh h Hl Hh)
    as (pre & _ & E).
  destruct (guard_config_fields pre cl) as [Hc _].
  unfold serve, serve_on. rewrite E.
  match goal with |- context [dispatch _ _ _ ?m0] =>
    destruct (dispatch_index_ok m0 Hw) as (m' & D & HB) end.
  rewrite D. exists m'. split; [reflexivity |].
  cbn [closure ctx Body] in HB. rewrite Hc in HB.
  rewrite append_nil_l in HB. rewrite HB. split; [reflexivity |].
  unfold render.
  repeat split.
  - eapply (contains_concat_1 _ _ 1); [reflexivity |].
    cbn [node_output swaggerConfig.Title toSwaggerConfig]. rewrite Ht.
    vm_compute. reflexivity.
  - eapply (contains_concat_1 _ _ 3); [reflexivity |].
    cbn [node_output swaggerConfig.URL toSwaggerConfig]. rewrite Hu.
    vm_compute. reflexivity.
  - eapply (contains_concat_2 _ _ 10); [reflexivity | reflexivity |].
    cbn [node_output swaggerConfig.DeepLinking toSwaggerConfig]. rewrite Hd.
    vm_compute. reflexivity.
  - eapply (contains_concat_2 _ _ 12); [reflexivity | reflexivity |].
    cbn [node_output swaggerConfig.DefaultModelsExpandDepth toSwaggerConfig]. rewrite He.
    vm_compute. reflexivity.
Qed.

(** C9, as the code has it: the page does not depend on the request.
    Two GET requests served with the shell page by the same closure get
    the same body, whatever their URIs; and when no write fails the
    body holds the fixed expression over [window.location] that the
    browser evaluates. *)
Theorem C9_page_independent_of_request
    (cl : Closure) (h : webdav.Handler) (req1 req2 : Request) :
  leaf req1 = Some "index.html" ->
  leaf req2 = Some "index.html" ->
  Config.Handler (config cl) = Some h ->
  exists m1 m2,
    serve swag_ReadDoc write_err cl req1 = Some m1 /\
    serve swag_ReadDoc write_err cl req2 = Some m2 /\
    Body (ctx m1) = Body (ctx m2) /\
    ((forall p, write_err p = false) ->
     contains ("oauth2RedirectUrl: " +:+ oauth2_redirect_expr)
       (Body (ctx m1)) = true).
Proof.
  intros Hl1 Hl2 Hh.
  destruct (handler_served swag_ReadDoc write_err req1 _ cl fresh h Hl1 Hh)
    as (pre1 & _ & E1).
  destruct (handler_served swag_ReadDoc write_err req2 _ cl fresh h Hl2 Hh)
    as (pre2 & _ & E2).
  destruct (guard_config_fields pre1 cl) as [Hc1 _].
  destruct (guard_config_fields pre2 cl) as [Hc2 _].
  unfold serve, serve_on. rewrite E1, E2.
  match type of E1 with _ = dispatch _ _ _ ?m0 =>
    destruct (dispatch_index m0) as (ok1 & m1 & W1 & D1);
    pose proof (dispatch_index_ok m0) as K1 end.
  match type of E2 with _ = dispatch _ _ _ ?m0 =>
    destruct (dispatch_index m0) as (ok2 & m2 & W2 & D2) end.
  rewrite D1, D2. exists m1, m2. split; [reflexivity |]. split; [reflexivity |].
  cbn [closure ctx trace] in W1, W2, K1.
  rewrite Hc1 in W1. rewrite Hc2 in W2. rewrite Hc1 in K1.
  split.
  - eapply write_all_body; [| exact W1 | exact W2]. reflexivity.
  - intros Hw. destruct (K1 Hw) as (m1' & D1' & HB).
    rewrite D1 in D1'. injection D1' as <-.
    rewrite HB, append_nil_l. unfold render.
    eapply (contains_concat_2 _ _ 4); [reflexivity | reflexivity |].
    vm_compute. reflexivity.
Qed.

End Index.

Lemma C5_witness :
  exists m,
    serve Sample.registry Sample.no_write_error Sample.demo_closure
      Sample.index_request = Some m /\
    Body (ctx m) = render (toSwaggerConfig (config Sample.demo_closure)) /\
    contains "Demo" (Body (ctx m)) = true /\
    contains "doc.json" (Body (ctx m)) = true /\
    contains "deepLinking:  true " (Body (ctx m)) = true /\
    contains "defaultModelsExpandDepth:  1 " (Body (ctx m)) = true.
Proof.
  apply (C5_index_embeds_configuration Sample.registry Sample.no_write_error
           Sample.demo_closure Sample.provider Sample.index_request).
  - reflexivity.
  - vm_compute. reflexivity.
  - reflexivity.
  - reflexivity.
  - reflexivity.
  - reflexivity.
  - reflexivity.
Defined.

(** C5 as stated fails: the page rendered for that configuration holds
    neither [deepLinking: true] nor [defaultModelsExpandDepth: 1]; both
    values come out with a second blank before them. *)
Lemma C5_counterexample :
  exists body,
    body_of (serve Sample.registry Sample.no_write_error Sample.demo_closure
               Sample.index_request) = Some body /\
    contains "Demo" body = true /\
    contains "doc.json" body = true /\
    contains "deepLinking: true" body = false /\
    contains "defaultModelsExpandDepth: 1" body = false.
Proof.
  exists (render (toSwaggerConfig (config Sample.demo_closure))).
  repeat split; vm_compute; reflexivity.
Qed.

Lemma C9_witness :
  exists m1 m2,
    serve Sample.registry Sample.no_write_error Sample.closure0
      Sample.request_a = Some m1 /\
    serve Sample.registry Sample.no_write_error Sample.closure0
      Sample.request_b = Some m2 /\
    Body (ctx m1) = Body (ctx m2) /\
    ((forall p, Sample.no_write_error p = false) ->
     contains ("oauth2RedirectUrl: " +:+ oauth2_redirect_expr)
       (Body (ctx m1)) = true).
Proof.
  apply (C9_page_independent_of_request Sample.registry Sample.no_write_error
           Sample.closure0 Sample.provider Sample.request_a Sample.request_b).
  - vm_compute. reflexivity.
  - vm_compute. reflexivity.
  - reflexivity.
Defined.

(** C9 as stated fails: two requests from different origins get the
    same page, and the page names neither origin. *)
Lemma C9_counterexample :
  exists body,
    body_of (serve Sample.registry Sample.no_write_error Sample.closure0
               Sample.request_a) = Some body /\
    body_of (serve Sample.registry Sample.no_write_error Sample.closure0
               Sample.request_b) = Some body /\
    contains "a.example" body = false /\
    contains "b.example" body = false.
Proof.
  exists (render (toSwaggerConfig (config Sample.closure0))).
  repeat split; vm_compute; reflexivity.
Qed.

(** ** Construction *)

Section Construction.

Variable swag_Name : string.
Variable swaggerFiles_Handler : webdav.Handler.

Lemma or_default_empty d : or_default "" d = d.
Proof. reflexivity. Qed.

Lemma or_default_set s d : s <> "" -> or_default s d = s.
Proof.
  intros H. unfold or_default. apply String.eqb_neq in H. rewrite H. reflexivity.
Qed.

(** C10: [New] replaces every zero-valued field of the configuration it
    is given by its default and keeps the others; a depth of 0 cannot be
    told from a depth of 1, and the page shows 1. *)
Theorem C10_defaults_filled (c : Config.t) (rest : list Config.t) :
  let c' := New_config swag_Name swaggerFiles_Handler (c :: rest) in
  (Config.URL c = "" -> Config.URL c' = "doc.json") /\
  (Config.DocExpansion c = "" -> Config.DocExpansion c' = "list") /\
  (Config.InstanceName c = "" -> Config.InstanceName c' = swag_Name) /\
  (Config.Title c = "" -> Config.Title c' = "Swagger UI") /\
  (Config.DefaultModelsExpandDepth c = 0 ->
   Config.DefaultModelsExpandDepth c' = 1) /\
  (Config.Handler c = None -> Config.Handler c' = Some swaggerFiles_Handler) /\
  (Config.URL c <> "" -> Config.URL c' = Config.URL c) /\
  (Config.DocExpansion c <> "" -> Config.DocExpansion c' = Config.DocExpansion c) /\
  (Config.InstanceName c <> "" -> Config.InstanceName c' = Config.InstanceName c) /\
  (Config.Title c <> "" -> Config.Title c' = Config.Title c) /\
  (Config.DefaultModelsExpandDepth c <> 0 ->
   Config.DefaultModelsExpandDepth c'
   = Config.DefaultModelsExpandDepth c) /\
  (forall h, Config.Handler c = Some h -> Config.Handler c' = Some h) /\
  New_config swag_Name swaggerFiles_Handler (with_depth c 0 :: rest)
  = New_config swag_Name swaggerFiles_Handler (with_depth c 1 :: rest) /\
  contains "defaultModelsExpandDepth:  1 "
    (render (toSwaggerConfig
               (New_config swag_Name swaggerFiles_Handler
                  (with_depth c 0 :: rest)))) = true.
Proof.
  cbv zeta. unfold New_config. cbn [Config.URL Config.DocExpansion
    Config.InstanceName Config.Title Config.DefaultModelsExpandDepth
    Config.Handler with_depth].
  repeat split.
  - intros ->. reflexivity.
  - intros ->. reflexivity.
  - intros ->. reflexivity.
  - intros ->. reflexivity.
  - intros ->. reflexivity.
  - intros ->. reflexivity.
  - apply or_default_set.
  - apply or_default_set.
  - apply or_default_set.
  - apply or_default_set.
  - intros H. apply Z.eqb_neq in H. rewrite H. reflexivity.
  - intros h ->. reflexivity.
  - unfold render.
    eapply (contains_concat_2 _ _ 12); [reflexivity | reflexivity |].
    vm_compute. reflexivity.
Qed.

(** With no argument the handler starts from [defaultConfig] and the
    shared provider. *)
Lemma New_no_argument :
  New_config swag_Name swaggerFiles_Handler []
  = set_Handler (defaultConfig swag_Name) (Some swaggerFiles_Handler).
Proof.
  unfold New_config, defaultConfig, set_Handler. cbn.
  unfold or_default. destruct (String.eqb swag_Name ""); reflexivity.
Qed.

(** The closure that [New] returns always holds a provider. *)
Lemma New_Handler cfg :
  exists h,
    Config.Handler (config (New swag_Name swaggerFiles_Handler cfg)) = Some h.
Proof.
  unfold New, New_config; cbn. destruct (Config.Handler _); eauto.
Qed.

End Construction.

(** ** The route pattern: which names the second group can hold *)

Section Matching.

(** A search ends in the continuation. *)
Lemma bt_from_k r : forall s c k x,
  bt r s c k = Some x -> exists s' c', k s' c' = Some x.
Proof.
  induction r as [l | | cs | r1 IH1 r2 IH2 | r1 IH1 r2 IH2 | r1 IH1 | n r1 IH1];
    intros s c k x; cbn [bt].
  - destruct (strip_prefix l s); [eauto | discriminate].
  - destruct s as [| a s]; [discriminate |].
    destruct (Ascii.eqb a nl); [discriminate | eauto].
  - destruct s as [| a s]; [discriminate |].
    destruct (mem a cs); [eauto | discriminate].
  - intros H. apply IH1 in H as (s1 & c1 & H). apply IH2 in H. exact H.
  - destruct (bt r1 s c k) eqn:E1.
    + intros [= <-]. eapply IH1, E1.
    + apply IH2.
  - generalize (String.length s) at 1. intros fuel. revert s c.
    induction fuel as [| fuel IHf]; intros s c; [eauto |].
    match goal with |- context [bt r1 s c ?k1] =>
      destruct (bt r1 s c k1) eqn:E1 end; [| eauto].
    intros [= <-]. apply IH1 in E1 as (s1 & c1 & E1).
    destruct (String.length s1 <? String.length s)%nat; [| discriminate].
    eapply IHf, E1.
  - intros H. apply IH1 in H as (s1 & c1 & H). eauto.
Qed.

(** Without groups the captures reach the continuation unchanged. *)
Lemma bt_no_capture r : forall s c k x,
  no_capture r = true ->
  bt r s c k = Some x -> exists s', k s' c = Some x.
Proof.
  induction r as [l | | cs | r1 IH1 r2 IH2 | r1 IH1 r2 IH2 | r1 IH1 | n r1 IH1];
    intros s c k x; cbn [bt no_capture].
  - intros _. destruct (strip_prefix l s); [eauto | discriminate].
  - intros _. destruct s as [| a s]; [discriminate |].
    destruct (Ascii.eqb a nl); [discriminate | eauto].
  - intros _. destruct s as [| a s]; [discriminate |].
    destruct (mem a cs); [eauto | discriminate].
  - intros [N1 N2]%andb_true_iff H.
    apply (IH1 _ _ _ _ N1) in H as (s1 & H). apply (IH2 _ _ _ _ N2) in H. exact H.
  - intros [N1 N2]%andb_true_iff.
    destruct (bt r1 s c k) eqn:E1.
    + intros [= <-]. eapply IH1; eauto.
    + apply IH2, N2.
  - intros N1. generalize (String.length s) at 1. intros fuel. revert s.
    induction fuel as [| fuel IHf]; intros s; [eauto |].
    match goal with |- context [bt r1 s c ?k1] =>
      destruct (bt r1 s c k1) eqn:E1 end; [| eauto].
    intros [= <-]. apply (IH1 _ _ _ _ N1) in E1 as (s1 & E1).
    destruct (String.length s1 <? String.length s)%nat; [| discriminate].
    eapply IHf, E1.
  - discriminate.
Qed.

(** A starred pattern cannot fail when its continuation cannot. *)
Lemma bt_Star_total r s c k :
  (forall s' c', k s' c' <> None) -> bt (Star r) s c k <> None.
Proof.
  intros Hk. cbn [bt]. destruct (String.length s) as [| fuel]; [apply Hk |].
  match goal with |- context [bt r s c ?k1] =>
    destruct (bt r s c k1) end; [discriminate | apply Hk].
Qed.

(** Under a continuation that cannot fail, an alternation of literals
    takes the first literal the input starts with. *)
Lemma bt_alternatives_first ls : forall l s c k,
  (forall s' c', k s' c' <> None) ->
  bt (alternatives l ls) s c k
  = match first_match (l :: ls) s with
    | Some (_, s') => k s' c
    | None => None
    end.
Proof.
  induction ls as [| l' ls IH]; intros l s c k Hk; cbn [alternatives bt first_match].
  - destruct (strip_prefix l s); reflexivity.
  - destruct (strip_prefix l s) as [s' |] eqn:E.
    + destruct (k s' c) eqn:Ek; [reflexivity | exfalso; eapply Hk, Ek].
    + rewrite (IH l' s c k Hk). reflexivity.
Qed.

Lemma length_append (s t : string) :
  String.length (s +:+ t) = (String.length s + String.length t)%nat.
Proof.
  induction s as [| a s IH]; [reflexivity |].
  rewrite append_cons. cbn. rewrite IH. reflexivity.
Qed.

Lemma take_append (s t : string) : take (String.length s) (s +:+ t) = s.
Proof.
  induction s as [| a s IH]; [destruct t; reflexivity |].
  rewrite append_cons. cbn. rewrite IH. reflexivity.
Qed.

(** What a literal consumes is the literal. *)
Lemma consumed_strip l s s' : strip_prefix l s = Some s' -> consumed s s' = l.
Proof.
  intros H. apply strip_prefix_Some in H as ->.
  unfold consumed. rewrite length_append.
  replace (String.length l + String.length s' - String.length s')%nat
    with (String.length l) by lia.
  apply take_append.
Qed.

Lemma strip_prefix_app_None p q s :
  strip_prefix p s = None -> strip_prefix (p +:+ q) s = None.
Proof.
  revert s. induction p as [| a p IH]; intros s; [discriminate |].
  rewrite append_cons. cbn. destruct s as [| b s]; [reflexivity |].
  destruct (Ascii.eqb a b); [apply IH | reflexivity].
Qed.

Lemma first_match_Some names s l s' :
  first_match names s = Some (l, s') -> strip_prefix l s = Some s'.
Proof.
  induction names as [| n names IH]; cbn; [discriminate |].
  destruct (strip_prefix n s) eqn:E; [| exact IH].
  intros [= <- <-]. exact E.
Qed.

(** The four names that end in [.map] are never the first match: each
    comes after the name it extends. *)
Lemma first_match_reachable s l s' :
  first_match asset_names s = Some (l, s') -> In l reachable_names.
Proof.
  unfold asset_names, reachable_names. cbn [first_match].
  repeat match goal with
  | |- context [strip_prefix ?n s] =>
      lazymatch goal with
      | H : strip_prefix n s = None |- _ => fail
      | _ => idtac
      end;
      destruct (strip_prefix n s) eqn:?;
        [intros [= <- <-]; cbn; tauto |]
  | H : strip_prefix ?n s = None |- context [strip_prefix ?n' s] =>
      first [ change n' with (n +:+ ".map") ];
      rewrite (strip_prefix_app_None n ".map" s H)
  end.
  discriminate.
Qed.

Lemma bt_Concat r1 r2 s c k :
  bt (Concat r1 r2) s c k = bt r1 s c (fun s' c' => bt r2 s' c' k).
Proof. reflexivity. Qed.

Lemma bt_Capture n r1 s c k :
  bt (Capture n r1) s c k
  = bt r1 s c (fun s' c' => k s' ((n, consumed s s') :: c')).
Proof. reflexivity. Qed.

(** The second group of a match of the route pattern. *)
Lemma match_here_group2 s x :
  match_here matcher s = Some x -> In (group 2 x) reachable_names.
Proof.
  unfold match_here, matcher. rewrite bt_Concat.
  intros H. apply bt_from_k in H as (s1 & c1 & H).
  rewrite bt_Concat, bt_Capture in H.
  rewrite bt_alternatives_first in H.
  2:{ intros s' c'. apply bt_Star_total. discriminate. }
  change ("index.html" :: tl asset_names) with asset_names in H.
  destruct (first_match asset_names s1) as [[l s2] |] eqn:F; [| discriminate].
  apply bt_no_capture in H as (s3 & H); [| reflexivity].
  injection H as <-. cbn [group Nat.eqb].
  rewrite (consumed_strip l s1 s2 (first_match_Some _ _ _ _ F)).
  eapply first_match_reachable, F.
Qed.

Lemma find_group2 s x :
  find matcher s = Some x -> In (group 2 x) reachable_names.
Proof.
  induction s as [| a s IH]; cbn [find].
  - destruct (match_here matcher "") eqn:E; [| discriminate].
    intros [= <-]. eapply match_here_group2, E.
  - destruct (match_here matcher (String a s)) eqn:E.
    + intros [= <-]. eapply match_here_group2, E.
    + exact IH.
Qed.

(** X1: whatever the request, the leaf is one of nine names: the shell
    page, the document, the two icons, the redirect page, the
    stylesheet and the three scripts.  No request is served with a
    [.map] leaf. *)
Theorem leaf_reachable (req : Request) (p : string) :
  leaf req = Some p -> In p reachable_names.
Proof.
  unfold leaf. destruct (not_GET req); [discriminate |].
  destruct (not_found _ req); [discriminate |].
  unfold derive_path.
  destruct (negb (String.eqb (Param_any req) "")).
  - unfold matcher_FindStringSubmatch, FindStringSubmatch.
    destruct (find matcher (URI req)) as [x |] eqn:E; [| discriminate].
    cbn. intros [= <-]. eapply find_group2, E.
  - intros [= <-]. cbn. tauto.
Qed.

(** X2: a GET request without wildcard segment is served with the shell
    page, whatever its URI and whatever the configuration. *)
Theorem leaf_root (req : Request) :
  Method req = "GET" -> Param_any req = "" -> leaf req = Some "index.html".
Proof.
  intros HG Hany. unfold leaf. rewrite (not_GET_false _ HG).
  unfold not_found, derive_path. rewrite Hany. cbn.
  rewrite andb_false_r. reflexivity.
Qed.

End Matching.

(** ** The route pattern: a request that ends in a reachable name *)

Section Greedy.

(** The starred dot of package regexp is the greedy recursion. *)
Lemma bt_Star_dot s c k :
  bt (Star AnyCharNotNL) s c k = greedy_dot (fun s' => k s' c) s.
Proof.
  cbn [bt]. remember (String.length s) as fuel eqn:Hf.
  assert (Hle : (String.length s <= fuel)%nat) by lia. clear Hf.
  revert s Hle. induction fuel as [| fuel IH]; intros s Hle.
  - destruct s; [reflexivity | cbn in Hle; lia].
  - destruct s as [| a s']; [reflexivity |].
    cbn [greedy_dot]. destruct (Ascii.eqb a nl); [reflexivity |].
    replace (String.length s' <? String.length (String a s'))%nat with true
      by (symmetry; apply Nat.ltb_lt; cbn; lia).
    cbn in Hle. rewrite (IH s') by lia. reflexivity.
Qed.

(** The greedy recursion passes over a prefix without line feed as soon
    as the rest of the input gives a match. *)
Lemma greedy_dot_skip k pre s x :
  no_newline pre = true ->
  greedy_dot k s = Some x ->
  greedy_dot k (pre +:+ s) = Some x.
Proof.
  intros Hn Hs. induction pre as [| a pre IH]; [exact Hs |].
  rewrite append_cons. cbn in Hn |- *.
  apply andb_true_iff in Hn as [Ha Hn]. apply negb_true_iff in Ha.
  rewrite Ha, (IH Hn). reflexivity.
Qed.

Lemma consumed_all s : consumed s "" = s.
Proof.
  unfold consumed. cbn. rewrite Nat.sub_0_r.
  rewrite <- (append_nil_r s) at 2. apply take_append.
Qed.

Lemma consumed_append pre t : consumed (pre +:+ t) t = pre.
Proof.
  unfold consumed. rewrite length_append.
  replace (String.length pre + String.length t - String.length t)%nat
    with (String.length pre) by lia.
  apply take_append.
Qed.

(** A URI made of a prefix without line feed and a reachable name
    matches from its first byte, with the prefix as first group and the
    name as second. *)
Lemma match_here_name pre name :
  no_newline pre = true ->
  In name reachable_names ->
  match_here matcher (pre +:+ name)
  = Some [(0%nat, pre +:+ name); (2%nat, name); (1%nat, pre)].
Proof.
  intros Hn Hin. unfold match_here, matcher.
  rewrite bt_Concat, bt_Capture, bt_Star_dot.
  apply greedy_dot_skip; [exact Hn |].
  transitivity (Some [(0%nat, consumed (pre +:+ name) "");
                      (2%nat, name);
                      (1%nat, consumed (pre +:+ name) name)]);
    [| rewrite consumed_all, consumed_append; reflexivity].
  generalize (consumed (pre +:+ name)). intros g.
  cbn in Hin.
  repeat (destruct Hin as [<- | Hin]; [vm_compute; reflexivity |]).
  destruct Hin.
Qed.

Lemma find_match_here r s x : match_here r s = Some x -> find r s = Some x.
Proof. intros H. destruct s; cbn [find]; rewrite H; reflexivity. Qed.

Lemma FindStringSubmatch_name pre name :
  no_newline pre = true ->
  In name reachable_names ->
  matcher_FindStringSubmatch (pre +:+ name) = [pre +:+ name; pre; name].
Proof.
  intros Hn Hin. unfold matcher_FindStringSubmatch, FindStringSubmatch.
  rewrite (find_match_here _ _ _ (match_here_name pre name Hn Hin)).
  reflexivity.
Qed.

(** X3, the part of C1 that holds for every request: a GET request
    with a wildcard segment whose URI ends in one of the nine reachable
    names is served with that name as leaf, and with what precedes the
    name as prefix. *)
Theorem leaf_of_reachable_name (req : Request) (pre name : string) :
  Method req = "GET" ->
  Param_any req <> "" ->
  URI req = pre +:+ name ->
  no_newline pre = true ->
  In name reachable_names ->
  leaf req = Some name /\ prefix_of req = Some pre.
Proof.
  intros HG Hany HU Hn Hin. apply String.eqb_neq in Hany.
  unfold leaf, prefix_of, not_found, derive_path, derive_prefix.
  rewrite (not_GET_false _ HG), HU.
  rewrite (FindStringSubmatch_name pre name Hn Hin), Hany.
  split; reflexivity.
Qed.

End Greedy.

Lemma leaf_of_reachable_name_witness :
  leaf (Sample.get "http://localhost:8888/swagger/doc.json" "doc.json")
  = Some "doc.json" /\
  prefix_of (Sample.get "http://localhost:8888/swagger/doc.json" "doc.json")
  = Some "http://localhost:8888/swagger/".
Proof.
  apply (leaf_of_reachable_name
           (Sample.get "http://localhost:8888/swagger/doc.json" "doc.json")
           "http://localhost:8888/swagger/" "doc.json").
  - reflexivity.
  - cbn. discriminate.
  - reflexivity.
  - reflexivity.
  - cbn. tauto.
Defined.

(** ** The leaf of a request *)

(** The leaf derived for each name of the pattern, requested under the
    mount point of the demo: a request for a [.map] file is served with
    the file it maps. *)
Example leaf_table :
  map (fun n => leaf (Sample.get ("http://localhost:8888/swagger/" +:+ n) n))
      asset_names
  = [ Some "index.html"; Some "doc.json"; Some "favicon-16x16.png";
      Some "favicon-32x32.png"; Some "/oauth2-redirect.html";
      Some "swagger-ui.css"; Some "swagger-ui.css";
      Some "swagger-ui.js"; Some "swagger-ui.js";
      Some "swagger-ui-bundle.js"; Some "swagger-ui-bundle.js";
      Some "swagger-ui-standalone-preset.js";
      Some "swagger-ui-standalone-preset.js" ].
Proof. vm_compute. reflexivity. Qed.

(** C1 at a request for [swagger-ui.css.map]: the leaf derived is
    [swagger-ui.css], the stylesheet is what the handler opens and
    writes, and the content type is that of a stylesheet. *)
Theorem C1_map_request_served_as_stylesheet :
  leaf Sample.css_map_request = Some "swagger-ui.css" /\
  (trace <$> serve Sample.registry Sample.no_write_error Sample.closure0
               Sample.css_map_request)
  = Some [ EvFindStringSubmatch
             "http://localhost:8888/swagger/swagger-ui.css.map";
           EvSetPrefix "http://localhost:8888/swagger/";
           EvOpenFile "swagger-ui.css"; EvReadFrom;
           EvWrite "body{margin:0}" ] /\
  ((fun m => Header (ctx m) !! "Content-Type") <$>
     serve Sample.registry Sample.no_write_error Sample.closure0
       Sample.css_map_request)
  = Some (Some "text/css; charset=utf-8").
Proof.
  repeat split; vm_compute; reflexivity.
Qed.

Lemma leaf_reachable_witness :
  In "swagger-ui.css" reachable_names.
Proof.
  apply (leaf_reachable Sample.css_map_request "swagger-ui.css").
  vm_compute. reflexivity.
Defined.

Lemma leaf_root_witness :
  leaf {| Method := "GET"; URI := "http://localhost:8888/swagger";
          Param_any := "" |} = Some "index.html".
Proof.
  apply (leaf_root {| Method := "GET"; URI := "http://localhost:8888/swagger";
                      Param_any := "" |}); reflexivity.
Defined.

(** * Further properties of the handler *)

(** ** Its reads are in range and it keeps its configuration *)

Section Invariant.

Variable swag_ReadDoc : string -> option string.
Variable write_err : string -> bool.

Lemma guard_settings pre cl : settings (config (guard pre cl)) = settings (config cl).
Proof.
  unfold guard, record_prefix.
  destruct (once cl); [reflexivity |].
  destruct (Config.Handler (config cl)); reflexivity.
Qed.

(** One request on a closure that holds a provider: the handler
    returns, the settings are the same, and so is the file system. *)
Lemma serve_keeps cl h r0 req :
  Config.Handler (config cl) = Some h ->
  exists m h',
    serve_on swag_ReadDoc write_err r0 cl req = Some m /\
    settings (config (closure m)) = settings (config cl) /\
    Config.Handler (config (closure m)) = Some h' /\
    webdav.Files h' = webdav.Files h /\
    (once cl = true -> once (closure m) = true).
Proof.
  intros Hh. destruct (leaf req) as [p |] eqn:Hl.
  - destruct (serve_served swag_ReadDoc write_err req p cl r0 h Hl Hh)
      as (pre & m & _ & E & Hc & _).
    destruct (guard_Handler pre cl h Hh) as (h' & Hh' & Hf).
    exists m, h'. rewrite Hc. split; [exact E |].
    split; [apply guard_settings |]. split; [exact Hh' |]. split; [exact Hf |].
    unfold guard. intros Ho. rewrite Ho. exact Ho.
  - destruct (serve_rejected swag_ReadDoc write_err req cl r0 Hl) as (m & E & Hc).
    exists m, h. rewrite Hc. auto.
Qed.

Lemma serve_all_keeps reqs : forall cl h,
  Config.Handler (config cl) = Some h ->
  exists cl' h',
    serve_all swag_ReadDoc write_err cl reqs = Some cl' /\
    settings (config cl') = settings (config cl) /\
    Config.Handler (config cl') = Some h' /\
    webdav.Files h' = webdav.Files h.
Proof.
  induction reqs as [| req reqs IH]; intros cl h Hh; cbn [serve_all].
  - exists cl, h. auto.
  - destruct (serve_keeps cl h fresh req Hh) as (m & h1 & E & Hs & Hh1 & Hf & _).
    unfold serve. rewrite E.
    destruct (IH (closure m) h1 Hh1) as (cl' & h' & E' & Hs' & Hh' & Hf').
    exists cl', h'. split; [exact E' |]. split; [congruence |].
    split; [exact Hh' | congruence].
Qed.

End Invariant.

(** X4: in a handler built by [New], whatever the configuration passed
    and whatever the requests, the two reads that the handler can get
    wrong by itself never fail: [matches[1]] and [matches[2]] are in
    range whenever they are read, and [config.Handler] is never nil
    when its prefix is written or its file system is called.  After
    any sequence of requests the configuration is the one [New] built,
    up to the prefix of the provider, and the provider has the same
    file system.  The provider is one with a file system: see the
    note at [webdav.Handler]. *)
Theorem handler_reads_are_safe
    (swag_Name : string) (swag_ReadDoc : string -> option string)
    (swaggerFiles_Handler : webdav.Handler) (write_err : string -> bool)
    (cfg : list Config.t) (reqs : list Request) :
  exists cl h0 h,
    serve_all swag_ReadDoc write_err
      (New swag_Name swaggerFiles_Handler cfg) reqs = Some cl /\
    settings (config cl)
    = settings (New_config swag_Name swaggerFiles_Handler cfg) /\
    Config.Handler (New_config swag_Name swaggerFiles_Handler cfg) = Some h0 /\
    Config.Handler (config cl) = Some h /\
    webdav.Files h = webdav.Files h0.
Proof.
  destruct (New_Handler swag_Name swaggerFiles_Handler cfg) as [h0 Hh0].
  destruct (serve_all_keeps swag_ReadDoc write_err reqs _ h0 Hh0)
    as (cl & h & E & Hs & Hh & Hf).
  exists cl, h0, h. auto.
Qed.

(** ** The status of the response *)

Section Status.

Variable swag_ReadDoc : string -> option string.
Variable write_err : string -> bool.

Lemma serve_405 cl r0 req :
  not_GET req = true ->
  serve_on swag_ReadDoc write_err r0 cl req
  = Some {| closure := cl;
            ctx := {| StatusCode := 405; Header := Header r0;
                      Body := Body r0; Aborted := true |};
            trace := [] |}.
Proof. intros H. unfold serve_on, handler. rewrite H. reflexivity. Qed.

Lemma serve_404 cl r0 req :
  not_GET req = false ->
  not_found (matcher_FindStringSubmatch (URI req)) req = true ->
  serve_on swag_ReadDoc write_err r0 cl req
  = Some {| closure := cl;
            ctx := {| StatusCode := 404;
                      Header := <["Content-Type" :=
                                  "text/plain; charset=utf-8"]> (Header r0);
                      Body := Body r0 +:+ "Not Found";
                      Aborted := Aborted r0 |};
            trace := [EvFindStringSubmatch (URI req);
                      EvString 404 "Not Found"] |}.
Proof.
  intros HG Hnf. unfold serve_on, handler. rewrite HG.
  unfold FindStringSubmatch_uri, bind at 1 2, emit, ret; cbn.
  rewrite Hnf. reflexivity.
Qed.

Lemma not_GET_Method req : not_GET req = false <-> Method req = "GET".
Proof.
  unfold not_GET, MethodGet. rewrite negb_false_iff. apply String.eqb_eq.
Qed.

Lemma not_found_iff req :
  not_found (matcher_FindStringSubmatch (URI req)) req = true <->
  Param_any req <> "" /\ matcher_FindStringSubmatch (URI req) = [].
Proof.
  unfold not_found. rewrite andb_true_iff, !negb_true_iff, String.eqb_neq.
  destruct (FindStringSubmatch_length (URI req)) as [E | E]; rewrite E; cbn.
  - tauto.
  - split; [intros [[=] _] | intros [_ E']].
    rewrite E' in E. discriminate.
Qed.

Lemma write_all_aborted ps : forall m ok m',
  write_all write_err ps m = Some (ok, m') ->
  Aborted (ctx m') = Aborted (ctx m).
Proof.
  induction ps as [| p ps IH]; intros m ok m'; cbn.
  - intros [= _ <-]. reflexivity.
  - unfold bind. rewrite ctx_Write_run.
    destruct (write_err p); cbn.
    + intros [= _ <-]. reflexivity.
    + intros H. apply IH in H. exact H.
Qed.

(** The switch on the leaf either leaves the status and the abort flag
    alone or aborts with 500. *)
Lemma dispatch_status p m h :
  Config.Handler (config (closure m)) = Some h ->
  exists m',
    dispatch swag_ReadDoc write_err p m = Some (tt, m') /\
    ((StatusCode (ctx m') = StatusCode (ctx m) /\
      Aborted (ctx m') = Aborted (ctx m)) \/
     (StatusCode (ctx m') = 500 /\ Aborted (ctx m') = true)).
Proof.
  intros Hh.
  destruct (String.eqb_spec p "index.html") as [-> | N1].
  { destruct (dispatch_index swag_ReadDoc write_err m) as (ok & m' & W & D).
    exists m'. split; [exact D |]. left.
    match type of W with write_all _ ?ps ?m0 = _ =>
      destruct (write_all_frame write_err ps m0)
        as (ok' & m'' & W' & _ & _ & Hs) end.
    rewrite W in W'. injection W' as <- <-.
    split; [exact Hs |]. exact (write_all_aborted _ _ _ _ W). }
  destruct (String.eqb_spec p "doc.json") as [-> | N2].
  { rewrite dispatch_doc. eexists. split; [reflexivity |].
    destruct (swag_ReadDoc _) as [doc |]; cbn; [| right; auto].
    destruct (write_err doc); cbn; auto. }
  apply String.eqb_neq in N1, N2.
  rewrite (dispatch_file swag_ReadDoc write_err p m h N1 N2 Hh).
  eexists. split; [reflexivity |].
  destruct (webdav.OpenFile _ p) as [f |]; cbn; [| right; auto].
  destruct (webdav.ReadAll f) as [buf |]; cbn; [| right; auto].
  destruct (write_err buf); cbn; auto.
Qed.

End Status.

(** X5: the status of every response is 200, 404, 405 or 500.  It is
    405 exactly when the method is not GET, and 404 exactly when the
    method is GET, the wildcard segment is set and the pattern does not
    match the URI.  The request is aborted exactly when the status is
    405 or 500. *)
Theorem status_classification
    (swag_ReadDoc : string -> option string) (write_err : string -> bool)
    (cl : Closure) (h : webdav.Handler) (req : Request) :
  Config.Handler (config cl) = Some h ->
  exists m,
    serve swag_ReadDoc write_err cl req = Some m /\
    In (StatusCode (ctx m)) [200; 404; 405; 500] /\
    (StatusCode (ctx m) = 405 <-> Method req <> "GET") /\
    (StatusCode (ctx m) = 404 <->
     Method req = "GET" /\ Param_any req <> "" /\
     matcher_FindStringSubmatch (URI req) = []) /\
    (Aborted (ctx m) = true <->
     StatusCode (ctx m) = 405 \/ StatusCode (ctx m) = 500).
Proof.
  intros Hh. unfold serve.
  destruct (not_GET req) eqn:HG.
  { rewrite (serve_405 swag_ReadDoc write_err cl fresh req HG).
    eexists. split; [reflexivity |]. cbn.
    assert (HM : Method req <> "GET").
    { intros E. apply not_GET_Method in E. congruence. }
    repeat split; try tauto; try discriminate. }
  pose proof (proj1 (not_GET_Method req) HG) as HM.
  destruct (not_found (matcher_FindStringSubmatch (URI req)) req) eqn:Hnf.
  { rewrite (serve_404 swag_ReadDoc write_err cl fresh req HG Hnf).
    eexists. split; [reflexivity |]. cbn.
    apply not_found_iff in Hnf.
    repeat split; try tauto; try discriminate.
    intros [E | E]; discriminate. }
  assert (Hnf' : ~ (Param_any req <> "" /\
                    matcher_FindStringSubmatch (URI req) = [])).
  { intros E. apply not_found_iff in E. congruence. }
  destruct (leaf req) as [p |] eqn:Hl.
  2:{ destruct (leaf_None req Hl) as [E | [_ E]]; congruence. }
  destruct (handler_served swag_ReadDoc write_err req p cl fresh h Hl Hh)
    as (pre & _ & E).
  destruct (guard_Handler pre cl h Hh) as (h' & Hh' & _).
  unfold serve_on. rewrite E.
  match goal with |- context [dispatch _ _ p ?m0] =>
    destruct (dispatch_status swag_ReadDoc write_err p m0 h' Hh')
      as (m' & D & Hst) end.
  rewrite D. exists m'. split; [reflexivity |].
  cbn in Hst.
  destruct Hst as [[Hs Ha] | [Hs Ha]]; rewrite Hs, Ha; cbn;
    repeat split; try tauto; try discriminate;
    try (intros [E' | E']; discriminate).
Qed.

Lemma status_classification_witness :
  exists m,
    serve Sample.registry Sample.no_write_error Sample.closure0
      Sample.css_map_request = Some m /\
    In (StatusCode (ctx m)) [200; 404; 405; 500] /\
    (StatusCode (ctx m) = 405 <-> Method Sample.css_map_request <> "GET") /\
    (StatusCode (ctx m) = 404 <->
     Method Sample.css_map_request = "GET" /\
     Param_any Sample.css_map_request <> "" /\
     matcher_FindStringSubmatch (URI Sample.css_map_request) = []) /\
    (Aborted (ctx m) = true <->
     StatusCode (ctx m) = 405 \/ StatusCode (ctx m) = 500).
Proof.
  apply (status_classification Sample.registry Sample.no_write_error
           Sample.closure0 Sample.provider Sample.css_map_request).
  reflexivity.
Defined.

(** ** Which collaborator a request reaches *)

(** The second group of a match is a reachable name, so the leaf is. *)
Lemma derive_path_names uri any p :
  derive_path (matcher_FindStringSubmatch uri) any = Some p ->
  In p reachable_names.
Proof.
  unfold derive_path. destruct (negb (String.eqb any "")).
  - unfold matcher_FindStringSubmatch, FindStringSubmatch.
    destruct (find matcher uri) as [x |] eqn:E; [| discriminate].
    cbn. intros [= <-]. eapply find_group2, E.
  - intros [= <-]. cbn. tauto.
Qed.

Section Calls.

Variable swag_ReadDoc : string -> option string.
Variable write_err : string -> bool.

(** The writes of an execution add a prefix of the pieces to the body,
    and nothing but write events to the trace. *)
Lemma write_all_prefix ps : forall m ok m',
  write_all write_err ps m = Some (ok, m') ->
  exists k ws,
    Body (ctx m') = Body (ctx m) +:+ concat (firstn k ps) /\
    trace m' = trace m ++ ws /\
    Forall (fun e => is_backend_call e = false) ws.
Proof.
  induction ps as [| p ps IH]; intros m ok m'; cbn [write_all].
  - intros [= _ <-]. exists 0%nat, []. cbn.
    rewrite append_nil_r, app_nil_r. auto.
  - unfold bind. rewrite ctx_Write_run.
    destruct (write_err p); cbn.
    + intros [= _ <-]. exists 0%nat, [EvWrite p]. cbn.
      rewrite append_nil_r. repeat split. constructor; [reflexivity | constructor].
    + intros H. apply IH in H as (k & ws & HB & HT & HF). cbn in HB, HT.
      exists (S k), (EvWrite p :: ws). cbn.
      rewrite HB, HT, append_assoc, <- app_assoc. repeat split.
      constructor; [reflexivity | exact HF].
Qed.

(** The backend calls of the switch, leaf by leaf. *)
Lemma dispatch_calls p m h :
  Config.Handler (config (closure m)) = Some h ->
  exists m' ws,
    dispatch swag_ReadDoc write_err p m = Some (tt, m') /\
    trace m' = trace m ++ ws /\
    filter is_backend_call ws
    = (if String.eqb p "index.html" then [EvExecute]
       else if String.eqb p "doc.json"
            then [EvReadDoc (Config.InstanceName (config (closure m)))]
            else match webdav.OpenFile (webdav.Files h) p with
                 | Some _ => [EvOpenFile p; EvReadFrom]
                 | None => [EvOpenFile p]
                 end).
Proof.
  intros Hh.
  destruct (String.eqb_spec p "index.html") as [-> | N1].
  { destruct (dispatch_index swag_ReadDoc write_err m) as (ok & m' & W & D).
    apply write_all_prefix in W as (k & ws & _ & HT & HF). cbn in HT.
    exists m', (EvExecute :: ws). split; [exact D |].
    rewrite HT, <- app_assoc. split; [reflexivity |]. cbn. f_equal.
    clear HT. induction HF as [| e ws He _ IH]; [reflexivity |].
    cbn. rewrite He. exact IH. }
  destruct (String.eqb_spec p "doc.json") as [-> | N2].
  { rewrite dispatch_doc.
    destruct (swag_ReadDoc _) as [doc |]; eexists _, _;
      (split; [reflexivity |]); cbn; split; reflexivity. }
  apply String.eqb_neq in N1, N2.
  rewrite (dispatch_file swag_ReadDoc write_err p m h N1 N2 Hh).
  destruct (webdav.OpenFile _ p) as [f |].
  - destruct (webdav.ReadAll f) as [buf |]; eexists _, _;
      (split; [reflexivity |]); cbn; split; reflexivity.
  - eexists _, _. split; [reflexivity |]. cbn. split; reflexivity.
Qed.

End Calls.

(** X6: whatever the request, the handler opens at most one file and
    its name is one of seven: the two icons, the redirect page, the
    stylesheet and the three scripts, never a name taken from the URI
    as it is.  The registry is read only for the leaf [doc.json] and
    only under the configured instance name, the template is executed
    only for the leaf [index.html], and a rejected request reaches no
    collaborator. *)
Theorem backend_calls_are_bounded
    (swag_ReadDoc : string -> option string) (write_err : string -> bool)
    (cl : Closure) (h : webdav.Handler) (req : Request) :
  Config.Handler (config cl) = Some h ->
  exists m,
    serve swag_ReadDoc write_err cl req = Some m /\
    match leaf req with
    | None => filter is_backend_call (trace m) = []
    | Some p =>
        (p = "index.html" /\
         filter is_backend_call (trace m) = [EvExecute]) \/
        (p = "doc.json" /\
         filter is_backend_call (trace m)
         = [EvReadDoc (Config.InstanceName (config cl))]) \/
        (In p static_names /\
         (filter is_backend_call (trace m) = [EvOpenFile p] \/
          filter is_backend_call (trace m) = [EvOpenFile p; EvReadFrom]))
    end.
Proof.
  intros Hh. unfold serve.
  destruct (leaf req) as [p |] eqn:Hl.
  2:{ destruct (leaf_None req Hl) as [HG | [HG Hnf]].
      - rewrite (serve_405 swag_ReadDoc write_err cl fresh req HG).
        eexists. split; reflexivity.
      - rewrite (serve_404 swag_ReadDoc write_err cl fresh req HG Hnf).
        eexists. split; reflexivity. }
  destruct (handler_served swag_ReadDoc write_err req p cl fresh h Hl Hh)
    as (pre & _ & E).
  destruct (guard_Handler pre cl h Hh) as (h' & Hh' & Hf).
  destruct (guard_config_fields pre cl) as [_ Hn].
  unfold serve_on. rewrite E.
  match goal with |- context [dispatch _ _ p ?m0] =>
    destruct (dispatch_calls swag_ReadDoc write_err p m0 h' Hh')
      as (m' & ws & D & HT & HW) end.
  rewrite D. exists m'. split; [reflexivity |].
  cbn [closure trace] in HT, HW. rewrite Hn in HW.
  assert (HF : filter is_backend_call (trace m') = filter is_backend_call ws).
  { rewrite HT. destruct (once cl); reflexivity. }
  rewrite HF, HW.
  destruct (leaf_found _ _ Hl) as [_ Hp].
  apply derive_path_names in Hp. cbn in Hp.
  destruct Hp as [<- | [<- | Hp]];
    [left; split; reflexivity | right; left; split; reflexivity |].
  right; right.
  repeat (destruct Hp as [<- | Hp];
          [split; [cbn; tauto |];
           simpl; destruct (webdav.OpenFile _ _);
           [right | left]; reflexivity |]).
  destruct Hp.
Qed.

Lemma backend_calls_are_bounded_witness :
  exists m,
    serve Sample.registry Sample.no_write_error Sample.closure0
      Sample.css_map_request = Some m /\
    match leaf Sample.css_map_request with
    | None => filter is_backend_call (trace m) = []
    | Some p =>
        (p = "index.html" /\
         filter is_backend_call (trace m) = [EvExecute]) \/
        (p = "doc.json" /\
         filter is_backend_call (trace m)
         = [EvReadDoc (Config.InstanceName (config Sample.closure0))]) \/
        (In p static_names /\
         (filter is_backend_call (trace m) = [EvOpenFile p] \/
          filter is_backend_call (trace m) = [EvOpenFile p; EvReadFrom]))
    end.
Proof.
  apply (backend_calls_are_bounded Sample.registry Sample.no_write_error
           Sample.closure0 Sample.provider Sample.css_map_request).
  reflexivity.
Defined.

(** ** The outcome of a served request, leaf by leaf *)

(** X7: the shell page is always answered 200 and never aborted, even
    when a write fails, since the error of the execution is dropped.
    The body is then the pieces written before the failure, a prefix of
    the page, and it is the whole page when no piece fails. *)
Theorem index_ignores_write_errors
    (swag_ReadDoc : string -> option string) (write_err : string -> bool)
    (cl : Closure) (h : webdav.Handler) (req : Request) :
  leaf req = Some "index.html" ->
  Config.Handler (config cl) = Some h ->
  exists m k,
    serve swag_ReadDoc write_err cl req = Some m /\
    StatusCode (ctx m) = 200 /\
    Aborted (ctx m) = false /\
    Header (ctx m) !! "Content-Type" = Some "text/html; charset=utf-8" /\
    Body (ctx m)
    = concat (firstn k (map (node_output (toSwaggerConfig (config cl))) index)) /\
    (forallb (fun p => negb (write_err p))
       (map (node_output (toSwaggerConfig (config cl))) index) = true ->
     Body (ctx m) = render (toSwaggerConfig (config cl))).
Proof.
  intros Hl Hh.
  destruct (handler_served swag_ReadDoc write_err req _ cl fresh h Hl Hh)
    as (pre & _ & E).
  destruct (guard_config_fields pre cl) as [Hc _].
  unfold serve, serve_on. rewrite E.
  match goal with |- context [dispatch _ _ _ ?m0] =>
    destruct (dispatch_index swag_ReadDoc write_err m0)
      as (ok & m' & W & D) end.
  rewrite D. cbn [closure ctx trace] in W. rewrite Hc in W.
  match type of W with write_all _ ?ps ?m0 = _ =>
    destruct (write_all_frame write_err ps m0)
      as (ok' & m'' & W' & _ & Hd & Hs);
    pose proof (write_all_ok write_err ps m0) as Hok end.
  rewrite W in W'. injection W' as <- <-.
  pose proof (write_all_aborted write_err _ _ _ _ W) as Ha.
  destruct (write_all_prefix write_err _ _ _ _ W) as (k & ws & HB & _).
  cbn in Hs, Hd, Ha, HB. rewrite append_nil_l in HB.
  exists m', k. split; [reflexivity |]. split; [exact Hs |].
  split; [exact Ha |]. split; [rewrite Hd; reflexivity |].
  split; [exact HB |].
  intros Hall. rewrite (Hok Hall) in W. injection W as _ <-. reflexivity.
Qed.

Lemma index_ignores_write_errors_witness :
  exists m k,
    serve Sample.registry (fun p => String.eqb p "Swagger UI") Sample.closure0
      Sample.index_request = Some m /\
    StatusCode (ctx m) = 200 /\
    Aborted (ctx m) = false /\
    Header (ctx m) !! "Content-Type" = Some "text/html; charset=utf-8" /\
    Body (ctx m)
    = concat (firstn k (map (node_output
                              (toSwaggerConfig (config Sample.closure0)))
                            index)) /\
    (forallb (fun p => negb (String.eqb p "Swagger UI"))
       (map (node_output (toSwaggerConfig (config Sample.closure0))) index)
     = true ->
     Body (ctx m) = render (toSwaggerConfig (config Sample.closure0))).
Proof.
  apply (index_ignores_write_errors Sample.registry
           (fun p => String.eqb p "Swagger UI") Sample.closure0
           Sample.provider Sample.index_request).
  - vm_compute. reflexivity.
  - reflexivity.
Defined.

(** X8: a leaf other than the shell page and the document is served
    from the file of that name.  The status is 500 with an empty body
    when the file cannot be opened, cannot be read, or cannot be
    written; otherwise it is 200 and the body is the bytes read.  In
    every case the content type is the one of the leaf's extension. *)
Theorem static_file_outcome
    (swag_ReadDoc : string -> option string) (write_err : string -> bool)
    (cl : Closure) (h : webdav.Handler) (req : Request) (p : string) :
  leaf req = Some p ->
  p <> "index.html" ->
  p <> "doc.json" ->
  Config.Handler (config cl) = Some h ->
  exists m,
    serve swag_ReadDoc write_err cl req = Some m /\
    Header (ctx m)
    = with_content_type (spec_content_type (filepath_Ext p)) ∅ /\
    match webdav.OpenFile (webdav.Files h) p with
    | None => StatusCode (ctx m) = 500 /\ Body (ctx m) = ""
    | Some f =>
        match webdav.ReadAll f with
        | None => StatusCode (ctx m) = 500 /\ Body (ctx m) = ""
        | Some buf =>
            if write_err buf
            then StatusCode (ctx m) = 500 /\ Body (ctx m) = ""
            else StatusCode (ctx m) = 200 /\ Body (ctx m) = buf
        end
    end.
Proof.
  intros Hl N1 N2 Hh. apply String.eqb_neq in N1, N2.
  destruct (handler_served swag_ReadDoc write_err req _ cl fresh h Hl Hh)
    as (pre & _ & E).
  destruct (guard_Handler pre cl h Hh) as (h' & Hh' & Hf).
  unfold serve, serve_on. rewrite E.
  erewrite (dispatch_file swag_ReadDoc write_err p);
    [| exact N1 | exact N2 | cbn [closure]; exact Hh'].
  rewrite Hf. eexists. split; [reflexivity |].
  destruct (webdav.OpenFile _ p) as [f |]; cbn; [| auto].
  destruct (webdav.ReadAll f) as [buf |]; cbn; [| auto].
  destruct (write_err buf); cbn; auto.
Qed.

Lemma static_file_outcome_witness :
  exists m,
    serve Sample.registry Sample.no_write_error Sample.closure0
      (Sample.get "http://localhost:8888/swagger/favicon-16x16.png"
                  "favicon-16x16.png") = Some m /\
    Header (ctx m) = <["Content-Type" := "image/png"]> ∅ /\
    StatusCode (ctx m) = 500 /\ Body (ctx m) = "".
Proof.
  destruct (static_file_outcome Sample.registry Sample.no_write_error
              Sample.closure0 Sample.provider
              (Sample.get "http://localhost:8888/swagger/favicon-16x16.png"
                          "favicon-16x16.png")
              "favicon-16x16.png")
    as (m & E & Hd & Ho).
  - vm_compute. reflexivity.
  - discriminate.
  - discriminate.
  - reflexivity.
  - exists m. split; [exact E |]. split; [exact Hd |]. exact Ho.
Defined.

(** X9: every served request gets an explicit content type, one of the
    five of the switch: the case without content type is never taken,
    because every leaf that can be derived ends in [.html], [.json],
    [.png], [.css] or [.js]. *)
Theorem served_content_type_is_explicit
    (swag_ReadDoc : string -> option string) (write_err : string -> bool)
    (cl : Closure) (h : webdav.Handler) (r0 : Response)
    (req : Request) (p : string) :
  leaf req = Some p ->
  Config.Handler (config cl) = Some h ->
  exists m ct,
    serve_on swag_ReadDoc write_err r0 cl req = Some m /\
    spec_content_type (filepath_Ext p) = Some ct /\
    In ct content_types /\
    Header (ctx m) !! "Content-Type" = Some ct.
Proof.
  intros Hl Hh.
  destruct (serve_served swag_ReadDoc write_err req p cl r0 h Hl Hh)
    as (pre & m & _ & E & _ & Hd).
  destruct (leaf_found _ _ Hl) as [_ Hp].
  apply derive_path_names in Hp. cbn in Hp.
  assert (exists ct, spec_content_type (filepath_Ext p) = Some ct /\
                     In ct content_types) as (ct & Hct & Hin).
  { repeat (destruct Hp as [<- | Hp];
            [eexists; split; [vm_compute; reflexivity | cbn; tauto] |]).
    destruct Hp. }
  exists m, ct. split; [exact E |]. split; [exact Hct |]. split; [exact Hin |].
  rewrite Hd, Hct. cbn. apply lookup_insert_eq.
Qed.

Lemma served_content_type_is_explicit_witness :
  exists m ct,
    serve_on Sample.registry Sample.no_write_error fresh Sample.closure0
      Sample.css_map_request = Some m /\
    spec_content_type (filepath_Ext "swagger-ui.css") = Some ct /\
    In ct content_types /\
    Header (ctx m) !! "Content-Type" = Some ct.
Proof.
  apply (served_content_type_is_explicit Sample.registry
           Sample.no_write_error Sample.closure0 Sample.provider fresh
           Sample.css_map_request "swagger-ui.css").
  - vm_compute. reflexivity.
  - reflexivity.
Defined.

(** ** The configuration that [New] builds *)

Lemma or_default_idem s d : or_default (or_default s d) d = or_default s d.
Proof.
  unfold or_default. destruct (String.eqb s "") eqn:E; [| rewrite E; reflexivity].
  destruct (String.eqb d ""); reflexivity.
Qed.

Lemma or_default_nonempty s d : d <> "" -> or_default s d <> "".
Proof.
  intros Hd. unfold or_default.
  destruct (String.eqb_spec s ""); [exact Hd | assumption].
Qed.

(** X10: the configuration that [New] leaves behind has no zero-valued
    URL, expansion mode, title, depth or provider, and it is a fixed
    point: given to [New] again (the caller's configuration is filled in
    place, so this is what a second call on it sees) it comes out
    unchanged. *)
Theorem New_config_is_normal
    (swag_Name : string) (swaggerFiles_Handler : webdav.Handler)
    (cfg rest : list Config.t) :
  let c := New_config swag_Name swaggerFiles_Handler cfg in
  Config.URL c <> "" /\
  Config.DocExpansion c <> "" /\
  Config.Title c <> "" /\
  Config.DefaultModelsExpandDepth c <> 0 /\
  Config.Handler c <> None /\
  New_config swag_Name swaggerFiles_Handler (c :: rest) = c.
Proof.
  cbv zeta. unfold New_config.
  cbn [Config.URL Config.DocExpansion Config.InstanceName Config.Title
       Config.DefaultModelsExpandDepth Config.Handler Config.DeepLinking
       Config.PersistAuthorization Config.Oauth2DefaultClientID].
  repeat split; try (apply or_default_nonempty; discriminate).
  - destruct (Z.eqb_spec (Config.DefaultModelsExpandDepth
                            match cfg with
                            | [] => defaultConfig swag_Name
                            | c :: _ => c
                            end) 0); [discriminate | assumption].
  - destruct (Config.Handler _); discriminate.
  - rewrite !or_default_idem. f_equal.
    + destruct (Z.eqb_spec (Config.DefaultModelsExpandDepth
                              match cfg with
                              | [] => defaultConfig swag_Name
                              | c :: _ => c
                              end) 0) as [E | E]; [reflexivity |].
      apply Z.eqb_neq in E. rewrite E. reflexivity.
    + destruct (Config.Handler _); reflexivity.
Qed.

(** ** The page and the router *)

(** The page names each of its five assets by a path relative to its
    own, whatever the configuration. *)
Lemma render_names_assets (data : swaggerConfig.t) (n : string) :
  In n page_assets ->
  contains (q +:+ "./" +:+ n +:+ q) (render data) = true.
Proof.
  unfold page_assets. intros Hin.
  repeat (destruct Hin as [<- | Hin];
          [unfold render;
           eapply (contains_concat_1 _ _ 2); [reflexivity |];
           vm_compute; reflexivity |]).
  destruct Hin.
Qed.

(** The calls and the status of a request for a file of the provider. *)
Lemma serve_file_calls
    (swag_ReadDoc : string -> option string) (write_err : string -> bool)
    (cl : Closure) (h : webdav.Handler) (req : Request) (p : string) :
  leaf req = Some p ->
  String.eqb p "index.html" = false ->
  String.eqb p "doc.json" = false ->
  Config.Handler (config cl) = Some h ->
  exists m,
    serve swag_ReadDoc write_err cl req = Some m /\
    (StatusCode (ctx m) = 200 \/ StatusCode (ctx m) = 500) /\
    filter is_backend_call (trace m)
    = match webdav.OpenFile (webdav.Files h) p with
      | Some _ => [EvOpenFile p; EvReadFrom]
      | None => [EvOpenFile p]
      end.
Proof.
  intros Hl N1 N2 Hh. unfold serve.
  destruct (handler_served swag_ReadDoc write_err req p cl fresh h Hl Hh)
    as (pre & _ & E).
  destruct (guard_Handler pre cl h Hh) as (h' & Hh' & Hf).
  unfold serve_on. rewrite E.
  match goal with |- context [dispatch _ _ p ?m0] =>
    rewrite (dispatch_file swag_ReadDoc write_err p m0 h' N1 N2 Hh') end.
  eexists. split; [reflexivity |]. rewrite Hf.
  destruct (webdav.OpenFile (webdav.Files h) p) as [f |];
    [destruct (webdav.ReadAll f) as [buf |];
       [destruct (write_err buf) |] |];
    destruct (once cl); cbn; split; auto.
Qed.

(** X11: the page and the route agree on the assets of the page.  The
    rendered page, whatever the configuration, names five assets by a
    path relative to its own.  A GET request for such a path, resolved
    against the address of the page (a URI made of what precedes
    [index.html] there, without a line feed, and of the name of the
    asset), is matched by the pattern with that name as leaf, and the
    handler asks the provider for the file of that name: it is neither
    rejected nor answered with the page or the document. *)
Theorem page_assets_are_served
    (swag_ReadDoc : string -> option string) (write_err : string -> bool)
    (data : swaggerConfig.t) (cl : Closure) (h : webdav.Handler)
    (req : Request) (pre n : string) :
  In n page_assets ->
  Method req = "GET" ->
  Param_any req <> "" ->
  URI req = pre +:+ n ->
  no_newline pre = true ->
  Config.Handler (config cl) = Some h ->
  contains (q +:+ "./" +:+ n +:+ q) (render data) = true /\
  matcher_FindStringSubmatch (URI req) = [pre +:+ n; pre; n] /\
  leaf req = Some n /\
  exists m,
    serve swag_ReadDoc write_err cl req = Some m /\
    (StatusCode (ctx m) = 200 \/ StatusCode (ctx m) = 500) /\
    filter is_backend_call (trace m)
    = match webdav.OpenFile (webdav.Files h) n with
      | Some _ => [EvOpenFile n; EvReadFrom]
      | None => [EvOpenFile n]
      end.
Proof.
  intros Hin HG Hany HU Hn Hh.
  split; [exact (render_names_assets data n Hin) |].
  assert (Hr : In n reachable_names).
  { unfold page_assets in Hin. unfold reachable_names. cbn in *. tauto. }
  assert (HM : matcher_FindStringSubmatch (URI req) = [pre +:+ n; pre; n]).
  { rewrite HU. exact (FindStringSubmatch_name pre n Hn Hr). }
  split; [exact HM |].
  assert (Hl : leaf req = Some n).
  { apply String.eqb_neq in Hany.
    unfold leaf, not_found, derive_path.
    rewrite (not_GET_false _ HG), HM, Hany. reflexivity. }
  split; [exact Hl |].
  assert (N : String.eqb n "index.html" = false /\
              String.eqb n "doc.json" = false).
  { unfold page_assets in Hin.
    repeat (destruct Hin as [<- | Hin]; [split; reflexivity |]).
    destruct Hin. }
  destruct N as [N1 N2].
  destruct (serve_file_calls swag_ReadDoc write_err cl h req n Hl N1 N2 Hh)
    as (m & E & HS & HC).
  exists m. auto.
Qed.

Lemma page_assets_are_served_witness :
  contains (q +:+ "./" +:+ "swagger-ui-bundle.js" +:+ q)
    (render (toSwaggerConfig Sample.demo)) = true /\
  matcher_FindStringSubmatch
    (URI (Sample.get "http://localhost:8888/swagger/swagger-ui-bundle.js"
                     "swagger-ui-bundle.js"))
  = ["http://localhost:8888/swagger/" +:+ "swagger-ui-bundle.js";
     "http://localhost:8888/swagger/"; "swagger-ui-bundle.js"] /\
  leaf (Sample.get "http://localhost:8888/swagger/swagger-ui-bundle.js"
                   "swagger-ui-bundle.js")
  = Some "swagger-ui-bundle.js" /\
  exists m,
    serve Sample.registry Sample.no_write_error Sample.closure0
      (Sample.get "http://localhost:8888/swagger/swagger-ui-bundle.js"
                  "swagger-ui-bundle.js") = Some m /\
    (StatusCode (ctx m) = 200 \/ StatusCode (ctx m) = 500) /\
    filter is_backend_call (trace m)
    = match webdav.OpenFile (webdav.Files Sample.provider)
              "swagger-ui-bundle.js" with
      | Some _ => [EvOpenFile "swagger-ui-bundle.js"; EvReadFrom]
      | None => [EvOpenFile "swagger-ui-bundle.js"]
      end.
Proof.
  apply (page_assets_are_served Sample.registry Sample.no_write_error
           (toSwaggerConfig Sample.demo) Sample.closure0 Sample.provider
           (Sample.get "http://localhost:8888/swagger/swagger-ui-bundle.js"
                       "swagger-ui-bundle.js")
           "http://localhost:8888/swagger/" "swagger-ui-bundle.js").
  - cbn. tauto.
  - reflexivity.
  - cbn. discriminate.
  - reflexivity.
  - vm_compute. reflexivity.
  - reflexivity.
Defined.

(** ** The extension of a path *)

Section Extension.

Lemma rev_app_append r : forall t, String.rev_app r t = String.rev_app r "" +:+ t.
Proof.
  induction r as [| a r IH]; intros t; [reflexivity |].
  cbn [String.rev_app]. rewrite (IH (String a t)), (IH (String a "")).
  rewrite append_assoc. reflexivity.
Qed.

Lemma rev_app_rev_app s : forall t u,
  String.rev_app (String.rev_app s t) u = String.rev_app t (s +:+ u).
Proof.
  induction s as [| a s IH]; intros t u; [reflexivity |].
  cbn [String.rev_app]. rewrite IH. reflexivity.
Qed.

Lemma rev_rev s : String.rev (String.rev s) = s.
Proof.
  unfold String.rev. rewrite rev_app_rev_app. cbn. apply append_nil_r.
Qed.

(** The scan, with [rest] the bytes passed so far: none of them is a
    dot or a separator. *)
Lemma Ext_scan_spec r : forall rest,
  none_in ["."%char; "/"%char] rest = true ->
  (exists stem, String.rev_app r rest = stem +:+ Ext_scan r rest) /\
  (Ext_scan r rest = "" \/
   exists e, Ext_scan r rest = String "." e /\
             none_in ["."%char; "/"%char] e = true) /\
  (Ext_scan r rest = "" ->
   exists dir base,
     String.rev_app r rest = dir +:+ base /\
     none_in ["."%char; "/"%char] base = true /\
     (dir = "" \/ exists d, dir = d +:+ "/")).
Proof.
  induction r as [| a r IH]; intros rest Hrest; cbn [Ext_scan String.rev_app].
  - split; [exists rest; symmetry; apply append_nil_r |].
    split; [left; reflexivity |].
    intros _. exists "", rest. auto.
  - destruct (Ascii.eqb_spec a "/") as [-> | Ns].
    { split; [eexists; symmetry; apply append_nil_r |].
      split; [left; reflexivity |].
      intros _. exists (String.rev_app r "" +:+ "/"), rest.
      split; [| split; [exact Hrest | right; eauto]].
      rewrite rev_app_append, append_assoc. reflexivity. }
    destruct (Ascii.eqb_spec a ".") as [-> | Nd].
    { split; [exists (String.rev_app r ""); apply rev_app_append |].
      split; [right; eauto | discriminate]. }
    apply IH. cbn.
    apply Ascii.eqb_neq in Ns, Nd. rewrite Ns, Nd. exact Hrest.
Qed.

End Extension.

(** X12: [filepath.Ext] returns a suffix of the path.  The suffix is
    either empty or a dot followed by bytes that are neither dots nor
    separators; it is empty only when the last element of the path,
    what follows the last separator, has no dot. *)
Theorem filepath_Ext_spec (path : string) :
  (exists stem, path = stem +:+ filepath_Ext path) /\
  (filepath_Ext path = "" \/
   exists e, filepath_Ext path = String "." e /\
             none_in ["."%char; "/"%char] e = true) /\
  (filepath_Ext path = "" ->
   exists dir base,
     path = dir +:+ base /\
     none_in ["."%char; "/"%char] base = true /\
     (dir = "" \/ exists d, dir = d +:+ "/")).
Proof.
  unfold filepath_Ext.
  pose proof (Ext_scan_spec (String.rev path) "" eq_refl) as H.
  change (String.rev_app (String.rev path) "")
    with (String.rev (String.rev path)) in H.
  rewrite rev_rev in H. exact H.
Qed.

(** ** The shape of a match of the route pattern *)

Section Shape.

Lemma match_here_greedy s :
  match_here matcher s = greedy_dot (after_prefix s) s.
Proof.
  unfold match_here, matcher. rewrite bt_Concat, bt_Capture, bt_Star_dot.
  reflexivity.
Qed.

Lemma greedy_dot_inv k s x :
  greedy_dot k s = Some x ->
  exists t s', s = t +:+ s' /\ no_newline t = true /\ k s' = Some x.
Proof.
  induction s as [| a s IH]; cbn [greedy_dot].
  - intros H. exists "", "". auto.
  - destruct (Ascii.eqb a nl) eqn:Ea.
    + intros H. exists "", (String a s). auto.
    + destruct (greedy_dot k s) as [y |] eqn:E.
      * intros [= ->]. destruct (IH eq_refl) as (t & s' & -> & Ht & Hk).
        exists (String a t), s'. split; [reflexivity |].
        split; [cbn; rewrite Ea; exact Ht | exact Hk].
      * intros H. exists "", (String a s). auto.
Qed.

(** The starred class reads bytes of the class only. *)
Lemma bt_Star_class_inv cs s c k x :
  bt (Star (CharClass cs)) s c k = Some x ->
  exists t s', s = t +:+ s' /\ all_in cs t = true /\ k s' c = Some x.
Proof.
  cbn [bt]. generalize (String.length s) at 1. intros fuel. revert s.
  induction fuel as [| fuel IH]; intros s.
  - intros H. exists "", s. auto.
  - destruct s as [| a s'].
    + intros H. exists "", "". auto.
    + destruct (mem a cs) eqn:Ea; [| intros H; exists "", (String a s'); auto].
      destruct (String.length s' <? String.length (String a s'))%nat;
        [| intros H; exists "", (String a s'); auto].
      match goal with |- match ?L with _ => _ end = _ -> _ =>
        destruct L as [y |] eqn:E end.
      * intros [= ->]. destruct (IH s' E) as (t & s'' & -> & Ht & Hk).
        exists (String a t), s''. split; [reflexivity |].
        split; [cbn; rewrite Ea; exact Ht | exact Hk].
      * intros H. exists "", (String a s'). auto.
Qed.

Lemma after_prefix_first s s1 :
  after_prefix s s1
  = match first_match asset_names s1 with
    | Some (_, s2) =>
        bt (Star (CharClass tail_class)) s2
           [(2%nat, consumed s1 s2); (1%nat, consumed s s1)]
           (fun s' c => Some ((0%nat, consumed s s') :: c))
    | None => None
    end.
Proof.
  unfold after_prefix. rewrite bt_Concat, bt_Capture.
  rewrite bt_alternatives_first; [reflexivity |].
  intros s' c'. apply bt_Star_total. discriminate.
Qed.

(** Whether the rest of the pattern matches depends on the input only. *)
Lemma after_prefix_None s s1 :
  after_prefix s s1 = None <-> first_match asset_names s1 = None.
Proof.
  rewrite after_prefix_first.
  destruct (first_match asset_names s1) as [[l s2] |]; [| tauto].
  split; [| discriminate]. intros H. exfalso. revert H.
  apply bt_Star_total. discriminate.
Qed.

Lemma after_prefix_inv s s1 x :
  after_prefix s s1 = Some x ->
  exists name tail rest,
    s1 = name +:+ tail +:+ rest /\
    In name reachable_names /\
    all_in tail_class tail = true /\
    x = [(0%nat, consumed s rest); (2%nat, name); (1%nat, consumed s s1)].
Proof.
  rewrite after_prefix_first.
  destruct (first_match asset_names s1) as [[l s2] |] eqn:F; [| discriminate].
  intros H. apply bt_Star_class_inv in H as (t & s3 & -> & Ht & H).
  injection H as <-.
  pose proof (first_match_Some _ _ _ _ F) as Hl.
  exists l, t, s3. rewrite (consumed_strip _ _ _ Hl).
  split; [apply strip_prefix_Some, Hl |].
  split; [eapply first_match_reachable, F |]. auto.
Qed.

(** A match that starts at the head of [s]. *)
Lemma match_here_decompose s x :
  match_here matcher s = Some x ->
  exists pre name tail rest,
    s = pre +:+ name +:+ tail +:+ rest /\
    no_newline pre = true /\
    In name reachable_names /\
    all_in tail_class tail = true /\
    x = [(0%nat, pre +:+ name +:+ tail); (2%nat, name); (1%nat, pre)].
Proof.
  rewrite match_here_greedy. intros H.
  apply greedy_dot_inv in H as (pre & s1 & -> & Hpre & H).
  apply after_prefix_inv in H as (name & tail & rest & -> & Hn & Ht & ->).
  exists pre, name, tail, rest. repeat split; auto.
  rewrite consumed_append.
  replace (pre +:+ name +:+ tail +:+ rest)
    with ((pre +:+ name +:+ tail) +:+ rest)
    by (rewrite !append_assoc; reflexivity).
  rewrite consumed_append. reflexivity.
Qed.

Lemma find_suffix r s x :
  find r s = Some x ->
  exists skipped s', s = skipped +:+ s' /\ match_here r s' = Some x.
Proof.
  induction s as [| a s IH]; cbn [find].
  - destruct (match_here r "") eqn:E; [| discriminate].
    intros [= <-]. exists "", "". auto.
  - destruct (match_here r (String a s)) eqn:E.
    + intros [= <-]. exists "", (String a s). auto.
    + intros H. destruct (IH H) as (k & s' & -> & Hm).
      exists (String a k), s'. auto.
Qed.

Lemma greedy_dot_None_ext k k' s :
  (forall t, k t = None -> k' t = None) ->
  greedy_dot k s = None -> greedy_dot k' s = None.
Proof.
  intros Hk. induction s as [| a s IH]; cbn [greedy_dot]; [apply Hk |].
  destruct (Ascii.eqb a nl); [apply Hk |].
  destruct (greedy_dot k s); [discriminate |].
  intros H. rewrite (IH eq_refl). apply Hk, H.
Qed.

(** On a URI without line feed the leftmost match starts at the head. *)
Lemma find_no_newline s :
  no_newline s = true -> find matcher s = match_here matcher s.
Proof.
  induction s as [| a s IH]; intros Hn; cbn [find].
  - destruct (match_here matcher ""); reflexivity.
  - destruct (match_here matcher (String a s)) eqn:E; [reflexivity |].
    cbn in Hn. apply andb_true_iff in Hn as [Ha Hs].
    apply negb_true_iff in Ha.
    rewrite (IH Hs). rewrite match_here_greedy in E |- *.
    cbn [greedy_dot] in E. rewrite Ha in E.
    destruct (greedy_dot (after_prefix (String a s)) s) eqn:G; [discriminate |].
    eapply greedy_dot_None_ext; [| exact G].
    intros t Ht. apply after_prefix_None. apply after_prefix_None in Ht.
    exact Ht.
Qed.

(** The strings of a match, and what surrounds them in the URI. *)
Lemma FindStringSubmatch_decompose uri :
  matcher_FindStringSubmatch uri = [] \/
  exists skipped pre name tail rest,
    uri = skipped +:+ pre +:+ name +:+ tail +:+ rest /\
    no_newline pre = true /\
    In name reachable_names /\
    all_in tail_class tail = true /\
    matcher_FindStringSubmatch uri = [pre +:+ name +:+ tail; pre; name] /\
    (no_newline uri = true -> skipped = "").
Proof.
  unfold matcher_FindStringSubmatch, FindStringSubmatch.
  destruct (find matcher uri) as [x |] eqn:F; [right | left; reflexivity].
  destruct (no_newline uri) eqn:Hn.
  - rewrite (find_no_newline uri Hn) in F.
    apply match_here_decompose in F
      as (pre & name & tail & rest & -> & Hp & Hin & Ht & ->).
    exists "", pre, name, tail, rest. repeat split; auto.
  - apply find_suffix in F as (skipped & s' & -> & F).
    apply match_here_decompose in F
      as (pre & name & tail & rest & -> & Hp & Hin & Ht & ->).
    exists skipped, pre, name, tail, rest. repeat split; auto. discriminate.
Qed.

End Shape.

(** X13: when the route pattern matches a URI, the three strings of the
    match are read off the URI in order: some prefix without line feed,
    one of the nine reachable names, and a run of the bytes [?], [|]
    and [.]; the match is all three, the groups are the first two.  On
    a URI without line feed nothing is skipped before the match, so the
    first group is an initial part of the URI. *)
Theorem match_shape (uri : string) :
  matcher_FindStringSubmatch uri = [] \/
  exists skipped pre name tail rest,
    uri = skipped +:+ pre +:+ name +:+ tail +:+ rest /\
    no_newline pre = true /\
    In name reachable_names /\
    all_in tail_class tail = true /\
    matcher_FindStringSubmatch uri = [pre +:+ name +:+ tail; pre; name] /\
    (no_newline uri = true -> skipped = "").
Proof. exact (FindStringSubmatch_decompose uri). Qed.



(** ** A request with a query *)

Section Query.

Lemma greedy_dot_fail k s :
  k s = None -> fails_after k s -> greedy_dot k s = None.
Proof.
  revert k. induction s as [| a s IH]; intros k Hk Hf; cbn [greedy_dot];
    [exact Hk |].
  destruct Hf as [Hs Hf]. rewrite (IH k Hs Hf).
  destruct (Ascii.eqb a nl); exact Hk.
Qed.

(** The greedy recursion stops at the head when the rest of the pattern
    matches there and at no later position. *)
Lemma greedy_dot_last k s x :
  k s = Some x -> fails_after k s -> greedy_dot k s = Some x.
Proof.
  intros Hk Hf. destruct s as [| a s]; [exact Hk |].
  cbn [greedy_dot]. destruct Hf as [Hs Hf].
  rewrite (greedy_dot_fail k s Hs Hf).
  destruct (Ascii.eqb a nl); exact Hk.
Qed.

Lemma first_match_None names t :
  forallb (fun n => negb (has_prefix n t)) names = true ->
  first_match names t = None.
Proof.
  induction names as [| n names IH]; cbn; [reflexivity |].
  intros [Hn Hr]%andb_true_iff. unfold has_prefix in Hn.
  destruct (strip_prefix n t); [discriminate | exact (IH Hr)].
Qed.

Lemma contains_false_cons names a q :
  forallb (fun n => negb (contains n (String a q))) names = true ->
  forallb (fun n => negb (has_prefix n (String a q))) names = true /\
  forallb (fun n => negb (contains n q)) names = true.
Proof.
  induction names as [| n names IH]; cbn [forallb]; [auto |].
  intros [Hn Hr]%andb_true_iff. destruct (IH Hr) as [H1 H2].
  cbn [contains] in Hn. rewrite negb_orb in Hn.
  apply andb_true_iff in Hn as [Hp Hc].
  rewrite Hp, Hc, H1, H2. auto.
Qed.

Lemma contains_false_head names q :
  forallb (fun n => negb (contains n q)) names = true ->
  forallb (fun n => negb (has_prefix n q)) names = true.
Proof.
  destruct q as [| a q]; [| intros H; apply (contains_false_cons _ _ _ H)].
  induction names as [| n names IH]; cbn [forallb]; [auto |].
  intros [Hn Hr]%andb_true_iff. rewrite (IH Hr).
  cbn [contains] in Hn. rewrite orb_false_r in Hn. rewrite Hn. reflexivity.
Qed.

(** In a string that holds none of the names the rest of the pattern
    matches nowhere. *)
Lemma no_name_fails s0 q :
  forallb (fun n => negb (contains n q)) asset_names = true ->
  after_prefix s0 q = None /\ fails_after (after_prefix s0) q.
Proof.
  induction q as [| a q IH]; intros H.
  - split; [| exact I].
    apply after_prefix_None, first_match_None, contains_false_head, H.
  - split.
    + apply after_prefix_None, first_match_None, contains_false_head, H.
    + destruct (contains_false_cons _ _ _ H) as [_ Hq].
      cbn [fails_after]. exact (IH Hq).
Qed.

Lemma after_prefix_at_name s0 name rest :
  first_match asset_names (name +:+ rest) = Some (name, rest) ->
  exists m0,
    after_prefix s0 (name +:+ rest)
    = Some [(0%nat, m0); (2%nat, name);
            (1%nat, consumed s0 (name +:+ rest))].
Proof.
  intros F. rewrite after_prefix_first, F.
  match goal with |- context [bt ?r ?s ?c ?k] =>
    destruct (bt r s c k) as [x |] eqn:E end.
  - apply bt_Star_class_inv in E as (t & s3 & _ & _ & E).
    injection E as <-. rewrite consumed_append. eauto.
  - exfalso. revert E. apply bt_Star_total. discriminate.
Qed.

Lemma fails_after_cons k a s :
  fails_after k (String a s) <-> k s = None /\ fails_after k s.
Proof. reflexivity. Qed.

(** A reachable name followed by a question mark and a query that holds
    no name: the greedy recursion stops at the name. *)
Lemma greedy_name_query s0 name query :
  In name reachable_names ->
  forallb (fun n => negb (contains n query)) asset_names = true ->
  exists m0,
    greedy_dot (after_prefix s0) (name +:+ "?" +:+ query)
    = Some [(0%nat, m0); (2%nat, name);
            (1%nat, consumed s0 (name +:+ "?" +:+ query))].
Proof.
  intros Hin Hq.
  assert (F : first_match asset_names (name +:+ "?" +:+ query)
              = Some (name, "?" +:+ query)).
  { cbn in Hin.
    repeat (destruct Hin as [<- | Hin]; [vm_compute; reflexivity |]).
    destruct Hin. }
  destruct (after_prefix_at_name s0 name ("?" +:+ query) F) as [m0 Hm].
  exists m0. apply greedy_dot_last; [exact Hm |].
  clear F Hm. cbn in Hin.
  repeat (destruct Hin as [<- | Hin];
          [rewrite !append_cons, !append_nil_l; cbn [fails_after];
           repeat (split; [apply after_prefix_None; vm_compute; reflexivity |]);
           apply no_name_fails, Hq |]).
  destruct Hin.
Qed.

End Query.

(** X15: a GET request with a wildcard segment whose URI is a prefix
    without line feed, one of the nine reachable names, a question mark
    and a query is served with that name as leaf and with the prefix as
    prefix, provided no name of the pattern occurs in the query.  (When
    one does, the last one wins: see [find_last_name_wins].) *)
Theorem leaf_with_query (req : Request) (pre name query : string) :
  Method req = "GET" ->
  Param_any req <> "" ->
  URI req = pre +:+ name +:+ "?" +:+ query ->
  no_newline pre = true ->
  In name reachable_names ->
  forallb (fun n => negb (contains n query)) asset_names = true ->
  leaf req = Some name /\ prefix_of req = Some pre.
Proof.
  intros HG Hany HU Hn Hin Hq. apply String.eqb_neq in Hany.
  destruct (greedy_name_query (URI req) name query Hin Hq) as [m0 G].
  assert (M : match_here matcher (URI req)
              = Some [(0%nat, m0); (2%nat, name); (1%nat, pre)]).
  { rewrite match_here_greedy. rewrite HU at 2.
    rewrite (greedy_dot_skip _ pre _ _ Hn G).
    rewrite HU, consumed_append. reflexivity. }
  unfold leaf, prefix_of, not_found, derive_path, derive_prefix.
  rewrite (not_GET_false _ HG).
  unfold matcher_FindStringSubmatch, FindStringSubmatch.
  rewrite (find_match_here _ _ _ M), Hany. split; reflexivity.
Qed.

Lemma leaf_with_query_witness :
  leaf (Sample.get "http://localhost:8888/swagger/index.html?lang=en"
                   "index.html") = Some "index.html" /\
  prefix_of (Sample.get "http://localhost:8888/swagger/index.html?lang=en"
                        "index.html")
  = Some "http://localhost:8888/swagger/".
Proof.
  apply (leaf_with_query
           (Sample.get "http://localhost:8888/swagger/index.html?lang=en"
                       "index.html")
           "http://localhost:8888/swagger/" "index.html" "lang=en").
  - reflexivity.
  - cbn. discriminate.
  - reflexivity.
  - reflexivity.
  - cbn. tauto.
  - vm_compute. reflexivity.
Defined.

(** ** The registered document *)

(** X16: the leaf [doc.json] is answered from the registry alone.  The
    status is 500 with an empty body when the registry has no document
    under the configured instance name or when the write fails;
    otherwise it is 200 and the body is the document.  In every case
    the content type is that of JSON and no file is opened. *)
Theorem document_outcome
    (swag_ReadDoc : string -> option string) (write_err : string -> bool)
    (cl : Closure) (h : webdav.Handler) (req : Request) :
  leaf req = Some "doc.json" ->
  Config.Handler (config cl) = Some h ->
  exists m,
    serve swag_ReadDoc write_err cl req = Some m /\
    Header (ctx m) !! "Content-Type" = Some "application/json; charset=utf-8" /\
    match swag_ReadDoc (Config.InstanceName (config cl)) with
    | None => StatusCode (ctx m) = 500 /\ Body (ctx m) = ""
    | Some doc =>
        if write_err doc
        then StatusCode (ctx m) = 500 /\ Body (ctx m) = ""
        else StatusCode (ctx m) = 200 /\ Body (ctx m) = doc
    end.
Proof.
  intros Hl Hh.
  destruct (handler_served swag_ReadDoc write_err req _ cl fresh h Hl Hh)
    as (pre & _ & E).
  destruct (guard_config_fields pre cl) as [_ Hn].
  unfold serve, serve_on. rewrite E, dispatch_doc.
  cbn [closure]. rewrite Hn.
  eexists. split; [reflexivity |].
  destruct (swag_ReadDoc _) as [doc |]; cbn; [| auto].
  destruct (write_err doc); cbn; auto.
Qed.

Lemma document_outcome_witness :
  exists m,
    serve Sample.registry (fun _ => true) Sample.closure0
      (Sample.get "http://localhost:8888/swagger/doc.json" "doc.json") = Some m /\
    Header (ctx m) !! "Content-Type" = Some "application/json; charset=utf-8" /\
    StatusCode (ctx m) = 500 /\ Body (ctx m) = "".
Proof.
  apply (document_outcome Sample.registry (fun _ => true) Sample.closure0
           Sample.provider
           (Sample.get "http://localhost:8888/swagger/doc.json" "doc.json")).
  - vm_compute. reflexivity.
  - reflexivity.
Defined.
